(** * Ruleset request builder of the GitHub Terraform provider

    A shallow embedding of [buildRulesetRequest], [expandBypassActors],
    [expandConditions], [expandRules] and [flattenAndSetRulesetConditions],
    and the properties of them that the specification states.

    Conventions of the embedding.
    - A Go [interface{}] is a [value]; a failed type assertion panics, which
      is the third outcome of [result] next to a returned value and a
      returned [error].
    - A pointer that may be [nil] is an [option]; so is the one slice the
      code returns as a bare [nil] on a successful path (the bypass actors).
      Every other slice is the list of its elements.
    - Go's [int] is taken to be 64 bits wide. *)

From Stdlib Require Import ZArith String Ascii List Lia.
From stdpp Require Import base option gmap strings list.

Local Open Scope string_scope.
Local Open Scope list_scope.
Local Open Scope Z_scope.

(** ** Outcomes of a call *)

(** [errors.New] and [fmt.Errorf] build an error out of its message. *)
Definition error : Type := string.
Definition errors_New (msg : string) : error := msg.

Inductive result (A : Type) : Type :=
| Ok (a : A)
| Err (e : error)
| Panic.
Arguments Ok {A} a.
Arguments Err {A} e.
Arguments Panic {A}.

#[global] Instance result_ret : MRet result := fun A a => Ok a.
#[global] Instance result_bind : MBind result := fun A B f r =>
  match r with
  | Ok a => f a
  | Err e => Err e
  | Panic => Panic
  end.

(** ** Dynamically typed configuration values *)

#[warnings="-register-all"] Inductive value : Type :=
| VNil                              (* the nil interface *)
| VBool (b : bool)
| VInt (n : Z)
| VString (s : string)
| VStrings (l : list string)        (* a []string *)
| VList (l : list value)            (* a []interface{} *)
| VSet (l : list value)             (* a *schema.Set, as List() yields it *)
| VMap (m : gmap string value).     (* a map[string]interface{} *)

(** [v == nil] *)
Definition isNil (v : value) : bool :=
  match v with VNil => true | _ => false end.

(** Type assertions [v.(bool)], [v.(int)], [v.(string)],
    [v.([]interface{})], [v.(map[string]interface{})] and
    [v.( *schema.Set).List()]. *)
Definition as_bool (v : value) : result bool :=
  match v with VBool b => Ok b | _ => Panic end.
Definition as_int (v : value) : result Z :=
  match v with VInt n => Ok n | _ => Panic end.
Definition as_string (v : value) : result string :=
  match v with VString s => Ok s | _ => Panic end.
Definition as_list (v : value) : result (list value) :=
  match v with VList l => Ok l | _ => Panic end.
Definition as_map (v : value) : result (gmap string value) :=
  match v with VMap m => Ok m | _ => Panic end.
Definition Set_List (v : value) : result (list value) :=
  match v with VSet l => Ok l | _ => Panic end.

(** [m[key]]: a missing key reads as the nil interface. *)
Definition index (m : gmap string value) (key : string) : value :=
  default VNil (m !! key).

(** ** The integer types *)

Definition minInt64 : Z := - 2 ^ 63.
Definition maxInt64 : Z := 2 ^ 63 - 1.
Definition inInt64 (n : Z) : Prop := minInt64 <= n <= maxInt64.

(** The conversion [int64(n)], two's complement wrap-around written out. *)
Definition int64 (n : Z) : Z := (n + 2 ^ 63) mod 2 ^ 64 - 2 ^ 63.

(** ** The string functions of the Go library that the code calls *)

Module strings.

(** [s[:n]] and [s[n:]] *)
Fixpoint take (n : nat) (s : string) : string :=
  match n, s with
  | S n', String c s' => String c (take n' s')
  | _, _ => EmptyString
  end.

Fixpoint drop (n : nat) (s : string) : string :=
  match n, s with
  | S n', String _ s' => drop n' s'
  | _, _ => s
  end.

(** [strings.Index]: where [substr] first starts in [s]. *)
Fixpoint Index (s substr : string) : option nat :=
  if String.prefix substr s then Some 0%nat
  else match s with
       | EmptyString => None
       | String _ s' => S <$> Index s' substr
       end.

(** The cutting loop of [strings.SplitN]: at most [cuts] cuts, the rest of
    the string is the last part. *)
Fixpoint genSplit (s sep : string) (cuts : nat) : list string :=
  match cuts with
  | O => [s]
  | S cuts' =>
      match Index s sep with
      | None => [s]
      | Some m => take m s :: genSplit (drop (m + String.length sep) s) sep cuts'
      end
  end.

(** [strings.SplitN(s, sep, n)] for a separator that is not empty and
    [n >= 0]: [n = 0] gives no part at all, otherwise at most [n] parts. *)
Definition SplitN (s sep : string) (n : nat) : list string :=
  match n with
  | O => []
  | S cuts => genSplit s sep cuts
  end.

End strings.

Module strconv.

Definition digit (c : ascii) : option Z :=
  let n := Z.of_nat (nat_of_ascii c) in
  if (48 <=? n) && (n <=? 57) then Some (n - 48) else None.

Fixpoint digits (s : string) (acc : Z) : option Z :=
  match s with
  | EmptyString => Some acc
  | String c s' => d ← digit c; digits s' (acc * 10 + d)
  end.

(** [strconv.Atoi]: an optional sign, then one decimal digit or more; the
    number has to fit the 64 bits of an [int]. [None] is a returned
    error. *)
Definition Atoi (s : string) : option Z :=
  match s with
  | EmptyString => None
  | String c s' =>
      let neg := Ascii.eqb c "-" in
      let body := if neg || Ascii.eqb c "+" then s' else s in
      match body with
      | EmptyString => None
      | _ =>
          n ← digits body 0;
          let n := if neg then - n else n in
          if (minInt64 <=? n) && (n <=? maxInt64) then Some n else None
      end
  end.

End strconv.

(** ** The request types of the API client *)

Record BypassActor : Type := {
  ActorID : option Z;
  ActorType : option string;
}.

Record RulesetRefConditionParameters : Type := {
  Include : list string;
  Exclude : list string;
}.

Record RulesetConditions : Type := {
  RefName : option RulesetRefConditionParameters;
}.

Record RuleRequiredStatusChecks : Type := {
  Context : string;
  IntegrationID : option Z;
}.

Record RequiredDeploymentEnvironmentsRuleParameters : Type := {
  RequiredDeploymentEnvironments : list string;
}.

Record PullRequestRuleParameters : Type := {
  DismissStaleReviewsOnPush : bool;
  RequireCodeOwnerReview : bool;
  RequireLastPushApproval : bool;
  RequiredApprovingReviewCount : Z;
  RequiredReviewThreadResolution : bool;
}.

Record RequiredStatusChecksRuleParameters : Type := {
  RequiredStatusChecks : list RuleRequiredStatusChecks;
  StrictRequiredStatusChecksPolicy : bool;
}.

(** [json.Marshal] is kept symbolic: a [json.RawMessage] is the parameter
    record it encodes. The code drops the error of [json.Marshal]. *)
Inductive RawMessage : Type :=
| MarshalRequiredDeployment (p : RequiredDeploymentEnvironmentsRuleParameters)
| MarshalPullRequest (p : PullRequestRuleParameters)
| MarshalRequiredStatusChecks (p : RequiredStatusChecksRuleParameters).

Record RepositoryRule : Type := {
  RuleType : string;                 (* the field Type *)
  Parameters : option RawMessage;
}.

Record Ruleset : Type := {
  Name : string;
  Target : option string;
  SourceType : option string;
  Enforcement : string;
  BypassActors : option (list BypassActor);
  Conditions : option RulesetConditions;
  Rules : list RepositoryRule;
}.

(** The nil-safe getters of the API client. *)
Definition GetConditions (r : option Ruleset) : option RulesetConditions :=
  r ≫= Conditions.
Definition GetRefName (rc : option RulesetConditions)
  : option RulesetRefConditionParameters :=
  rc ≫= RefName.

(** ** The configuration object

    [schema.ResourceData] belongs to the Terraform SDK. Of its reading side
    only the answers of [GetOk] matter here: for every key a value and the
    flag that tells whether the key is set. The statements hold for every
    answer. Of how the SDK comes to the flag one thing is used, and only
    where a statement is about a block that is present and empty: [GetOk]
    reports a key whose value is the zero value of its type, such as the
    empty set, as not set. Its writing side is the store of the values
    handed to [Set]. No function below reads a key after writing it. *)
Record ResourceData : Type := {
  GetOk : string -> value * bool;
  written : gmap string value;
}.

(** [d.Get(key)] is the value of [d.GetOk(key)] without the flag. *)
Definition Get (d : ResourceData) (key : string) : value := (GetOk d key).1.

(** [d.Set(key, v)]; the returned error is always nil here. *)
Definition ResourceData_Set (d : ResourceData) (key : string) (v : value)
  : ResourceData * option error :=
  ({| GetOk := GetOk d; written := <[key := v]> (written d) |}, None).

(** ** expandBypassActors *)

(** The loop [for _, v := range vL]. *)
Fixpoint bypassActorsLoop (vL : list value) (bypassActors : list BypassActor)
  : result (list BypassActor) :=
  match vL with
  | [] => Ok bypassActors
  | v :: vL' =>
      m ← as_map v;
      n ← as_int (index m "actor_id");
      let actorID := int64 n in
      actorType ← as_string (index m "actor_type");
      let bypassActor := {| ActorID := Some actorID; ActorType := Some actorType |} in
      bypassActorsLoop vL' (bypassActors ++ [bypassActor])
  end.

Definition expandBypassActors (d : ResourceData)
  : result (option (list BypassActor)) :=
  let bypassActors : list BypassActor := [] in
  let '(v, ok) := GetOk d "bypass_actors" in
  if ok then
    vL ← Set_List v;
    bypassActors ← bypassActorsLoop vL bypassActors;
    Ok (Some bypassActors)
  else Ok None.

(** ** expandConditions *)

(** Modelled from the spec: the strings of a set's elements, one after the
    other, for [expandNestedSet] below. *)
Fixpoint nestedSetLoop (vL : list value) (res : list string)
  : result (list string) :=
  match vL with
  | [] => Ok res
  | v :: vL' => s ← as_string v; nestedSetLoop vL' (res ++ [s])
  end.

(** Modelled from the spec: [expandNestedSet], a helper of this package that
    is not among the sources at hand. By section 4.3 the include and exclude
    sets are built verbatim from the block's two named set fields: the
    strings of the set under [target], in the order the set yields them. A
    block without that field gives no string. *)
Definition expandNestedSet (m : gmap string value) (target : string)
  : result (list string) :=
  match m !! target with
  | Some v => vL ← Set_List v; nestedSetLoop vL []
  | None => Ok []
  end.

(** The loop [for _, v := range vL] of [expandConditions]; [None] is the
    early [return nil, nil]. *)
Fixpoint conditionsLoop (vL : list value)
    (rulesetConditions : RulesetRefConditionParameters)
  : result (option RulesetRefConditionParameters) :=
  match vL with
  | [] => Ok (Some rulesetConditions)
  | v :: vL' =>
      if isNil v then Ok None
      else
        m ← as_map v;
        include ← expandNestedSet m "include";
        let rulesetConditions :=
          {| Include := include; Exclude := Exclude rulesetConditions |} in
        exclude ← expandNestedSet m "exclude";
        let rulesetConditions :=
          {| Include := Include rulesetConditions; Exclude := exclude |} in
        conditionsLoop vL' rulesetConditions
  end.

Definition expandConditions (d : ResourceData)
  : result (option RulesetRefConditionParameters) :=
  let '(v, ok) := GetOk d "conditions" in
  if ok then
    vL ← as_list v;
    if (1 <? length vL)%nat then
      Err (errors_New "cannot specify conditions more than one time")
    else
      let rulesetConditions := {| Include := []; Exclude := [] |} in
      conditionsLoop vL rulesetConditions
  else Ok None.

(** ** expandRules *)

Definition rules_toggleable : list string :=
  [ "creation"; "deletion"; "required_linear_history"; "required_signatures";
    "non_fast_forward" ].

(** [fmt.Sprintf("rule_%s", ruleName)] *)
Definition rule_key (ruleName : string) : string := "rule_" +:+ ruleName.

(** Lines 106 to 114: [for _, ruleName := range rules_toggleable]. *)
Fixpoint toggleLoop (d : ResourceData) (names : list string)
    (rulesetRules : list RepositoryRule) : result (list RepositoryRule) :=
  match names with
  | [] => Ok rulesetRules
  | ruleName :: names' =>
      ruleTurnedOn ← as_bool (Get d (rule_key ruleName));
      if ruleTurnedOn : bool then
        let toggleableRule := {| RuleType := ruleName; Parameters := None |} in
        toggleLoop d names' (rulesetRules ++ [toggleableRule])
      else toggleLoop d names' rulesetRules
  end.

(** Lines 134 to 151: the block [rule_required_deployments]. *)
Fixpoint deploymentEnvsLoop (l : list value) (requiredDeploymentEnvs : list string)
  : result (list string) :=
  match l with
  | [] => Ok requiredDeploymentEnvs
  | env :: l' =>
      s ← as_string env;
      deploymentEnvsLoop l' (requiredDeploymentEnvs ++ [s])
  end.

Definition requiredDeploymentsBlock (d : ResourceData)
    (rulesetRules : list RepositoryRule) : result (list RepositoryRule) :=
  let '(deploymentEnvs, ok) := GetOk d "rule_required_deployments" in
  if ok then
    l ← Set_List deploymentEnvs;
    requiredDeploymentEnvs ← deploymentEnvsLoop l [];
    let mRequiredDeploymentParams :=
      {| RequiredDeploymentEnvironments := requiredDeploymentEnvs |} in
    let rawParams := MarshalRequiredDeployment mRequiredDeploymentParams in
    let requiredDeploymentRule :=
      {| RuleType := "required_deployments"; Parameters := Some rawParams |} in
    Ok (rulesetRules ++ [requiredDeploymentRule])
  else Ok rulesetRules.

(** Lines 153 to 179: the block [rule_pull_request]. *)
Fixpoint pullRequestLoop (vL : list value) (rulesetRules : list RepositoryRule)
  : result (list RepositoryRule) :=
  match vL with
  | [] => Ok rulesetRules
  | v :: vL' =>
      if isNil v then Ok rulesetRules     (* break *)
      else
        m ← as_map v;
        dismiss ← as_bool (index m "dismiss_stale_reviews_on_push");
        owner ← as_bool (index m "require_code_owner_review");
        lastPush ← as_bool (index m "require_last_push_approval");
        count ← as_int (index m "required_approving_review_count");
        resolution ← as_bool (index m "required_review_thread_resolution");
        let pullRequestRuleParams :=
          {| DismissStaleReviewsOnPush := dismiss;
             RequireCodeOwnerReview := owner;
             RequireLastPushApproval := lastPush;
             RequiredApprovingReviewCount := count;
             RequiredReviewThreadResolution := resolution |} in
        let rawParams := MarshalPullRequest pullRequestRuleParams in
        let requiredDeploymentRule :=
          {| RuleType := "pull_request"; Parameters := Some rawParams |} in
        pullRequestLoop vL' (rulesetRules ++ [requiredDeploymentRule])
  end.

Definition pullRequestBlock (d : ResourceData)
    (rulesetRules : list RepositoryRule) : result (list RepositoryRule) :=
  let '(v, ok) := GetOk d "rule_pull_request" in
  if ok then
    vL ← as_list v;
    if (1 <? length vL)%nat then
      Err (errors_New "cannot specify rule_pull_request more than one time")
    else pullRequestLoop vL rulesetRules
  else Ok rulesetRules.

(** Lines 196 to 221, the body of [for _, statusCheck := range
    requiredStatusChecks]: one token [context] or [context:integration_id]
    becomes one check. *)
Definition parseStatusCheck (statusCheck : value) : result RuleRequiredStatusChecks :=
  token ← as_string statusCheck;
  let parts := strings.SplitN token ":" 2 in
  '(cContext, cIntegrationId) ←
    match parts with
    | [p0] => Ok (p0, EmptyString)
    | [p0; p1] => Ok (p0, p1)
    | _ =>
        Err ("could not parse check '" +:+ token
             +:+ "'. Expected `context:integration_id` or `context`")
    end;
  if negb (String.eqb cIntegrationId EmptyString) then
    match strconv.Atoi cIntegrationId with
    | None =>
        Err ("could not parse " +:+ cIntegrationId +:+ " as valid integration_id")
    | Some rrscIntegrationId =>
        let rrscIntegrationId64 := int64 rrscIntegrationId in
        Ok {| Context := cContext; IntegrationID := Some rrscIntegrationId64 |}
    end
  else Ok {| Context := cContext; IntegrationID := None |}.

Fixpoint statusChecksLoop (requiredStatusChecks : list value)
    (requiredStatusChecksList : list RuleRequiredStatusChecks)
  : result (list RuleRequiredStatusChecks) :=
  match requiredStatusChecks with
  | [] => Ok requiredStatusChecksList
  | statusCheck :: rest =>
      rrscCheck ← parseStatusCheck statusCheck;
      statusChecksLoop rest (requiredStatusChecksList ++ [rrscCheck])
  end.

(** Lines 181 to 240: the block [rule_required_status_checks]. *)
Fixpoint requiredStatusChecksLoop (vL : list value)
    (rulesetRules : list RepositoryRule) : result (list RepositoryRule) :=
  match vL with
  | [] => Ok rulesetRules
  | v :: vL' =>
      if isNil v then Ok rulesetRules     (* break *)
      else
        m ← as_map v;
        requiredStatusChecks ← Set_List (index m "required_status_checks");
        requiredStatusChecksList ← statusChecksLoop requiredStatusChecks [];
        strict ← as_bool (index m "strict_required_status_checks_policy");
        let requiredStatusChecksRuleParams :=
          {| RequiredStatusChecks := requiredStatusChecksList;
             StrictRequiredStatusChecksPolicy := strict |} in
        let rawParams := MarshalRequiredStatusChecks requiredStatusChecksRuleParams in
        let requiredDeploymentRule :=
          {| RuleType := "required_status_checks"; Parameters := Some rawParams |} in
        requiredStatusChecksLoop vL' (rulesetRules ++ [requiredDeploymentRule])
  end.

Definition requiredStatusChecksBlock (d : ResourceData)
    (rulesetRules : list RepositoryRule) : result (list RepositoryRule) :=
  let '(v, ok) := GetOk d "rule_required_status_checks" in
  if ok then
    vL ← as_list v;
    if (1 <? length vL)%nat then
      Err (errors_New "cannot specify rule_required_status_checks more than one time")
    else requiredStatusChecksLoop vL rulesetRules
  else Ok rulesetRules.

Definition expandRules (d : ResourceData) : result (list RepositoryRule) :=
  let rulesetRules : list RepositoryRule := [] in
  rulesetRules ← toggleLoop d rules_toggleable rulesetRules;
  rulesetRules ← requiredDeploymentsBlock d rulesetRules;
  rulesetRules ← pullRequestBlock d rulesetRules;
  rulesetRules ← requiredStatusChecksBlock d rulesetRules;
  Ok rulesetRules.

(** ** buildRulesetRequest *)

Definition buildRulesetRequest (d : ResourceData) (sourceType : option string)
  : result Ruleset :=
  target ← as_string (Get d "target");
  name ← as_string (Get d "name");
  enforcement ← as_string (Get d "enforcement");
  bypassActors ← expandBypassActors d;
  conditions ← expandConditions d;
  let rulesetConditions := {| RefName := conditions |} in
  rules ← expandRules d;
  Ok {| Name := name;
        Target := Some target;
        SourceType := sourceType;
        Enforcement := enforcement;
        BypassActors := bypassActors;
        Conditions := Some rulesetConditions;
        Rules := rules |}.

(** ** flattenAndSetRulesetConditions *)

Definition flattenAndSetRulesetConditions (d : ResourceData)
    (ruleset : option Ruleset) : ResourceData * option error :=
  let rc := GetConditions ruleset in
  match rc, GetRefName rc with
  | Some _, Some refName =>
      ResourceData_Set d "conditions"
        (VList [ VMap (<["include" := VStrings (Include refName)]>
                        (<["exclude" := VStrings (Exclude refName)]> ∅)) ])
  | _, _ => ResourceData_Set d "conditions" (VList [])
  end.

(** ** Vocabulary of the statements *)

(** The error taxonomy of the specification, as the messages the code
    builds. *)
Definition DuplicateConditionsBlock : error :=
  errors_New "cannot specify conditions more than one time".
Definition DuplicateRuleBlock (kind : string) : error :=
  errors_New ("cannot specify rule_" +:+ kind +:+ " more than one time").
Definition InvalidIntegrationId (value : string) : error :=
  "could not parse " +:+ value +:+ " as valid integration_id".

(** A string without any colon. *)
Fixpoint no_colon (s : string) : bool :=
  match s with
  | EmptyString => true
  | String c s' => negb (Ascii.eqb c ":") && no_colon s'
  end.

(** A configuration given by the answers for finitely many keys; any other
    key is answered as not set, with the nil interface. *)
Definition configOf (answers : list (string * (value * bool))) : ResourceData :=
  {| GetOk := fun key =>
       default (VNil, false) ((list_to_map answers : gmap string (value * bool)) !! key);
     written := ∅ |}.

(** The three tokens of the specification's examples, and a token that ends
    at its first colon. *)
Definition tokenWithId : string := "ci/test:12345".
Definition tokenPlain : string := "ci/test".
Definition tokenBadId : string := "ci/test:abc".
Definition tokenTrailingColon : string := "ci/test:".

(** An element of the [bypass_actors] set that supplies an integer actor id
    and a string actor type, next to the actor it stands for. *)
Definition actorOf (v : value) (a : BypassActor) : Prop :=
  exists (m : gmap string value) (id : Z) (ty : string),
    v = VMap m /\
    m !! "actor_id" = Some (VInt id) /\ inInt64 id /\
    m !! "actor_type" = Some (VString ty) /\
    a = {| ActorID := Some id; ActorType := Some ty |}.

Definition actorElement (id : Z) (ty : string) : value :=
  VMap (<["actor_id" := VInt id]> (<["actor_type" := VString ty]> ∅)).

(** A block of the [conditions] list with its two sets of patterns. *)
Definition conditionsElement (include exclude : list string) : value :=
  VMap (<["include" := VSet (VString <$> include)]>
          (<["exclude" := VSet (VString <$> exclude)]> ∅)).

(** The scalar fields and the five toggles of a configuration. *)
Definition scalarAnswers : list (string * (value * bool)) :=
  [ ("name", (VString "protect-main", true));
    ("target", (VString "branch", true));
    ("enforcement", (VString "active", true)) ].

Definition toggleAnswers (creation deletion linear signatures nonFF : bool)
  : list (string * (value * bool)) :=
  [ ("rule_creation", (VBool creation, creation));
    ("rule_deletion", (VBool deletion, deletion));
    ("rule_required_linear_history", (VBool linear, linear));
    ("rule_required_signatures", (VBool signatures, signatures));
    ("rule_non_fast_forward", (VBool nonFF, nonFF)) ].

(** A configuration with nothing but the scalar fields, all toggles off. *)
Definition cfgPlain : ResourceData :=
  configOf (scalarAnswers ++ toggleAnswers false false false false false).

Definition reqPlain : Ruleset :=
  {| Name := "protect-main";
     Target := Some "branch";
     SourceType := None;
     Enforcement := "active";
     BypassActors := None;
     Conditions := Some {| RefName := None |};
     Rules := [] |}.

(** The same with two [conditions] blocks. *)
Definition cfgTwoConditions : ResourceData :=
  configOf (("conditions",
             (VList [ conditionsElement ["refs/heads/main"] [];
                      conditionsElement ["refs/heads/dev"] [] ], true))
            :: scalarAnswers ++ toggleAnswers false false false false false).

(** A [conditions] list whose single block is null. *)
Definition cfgNullConditions : ResourceData :=
  configOf (("conditions", (VList [VNil], true))
            :: scalarAnswers ++ toggleAnswers false false false false false).

(** A [bypass_actors] block that is present and empty: [GetOk] answers with
    the empty set and reports it as not set. *)
Definition cfgEmptyActors : ResourceData :=
  configOf (("bypass_actors", (VSet [], false))
            :: scalarAnswers ++ toggleAnswers false false false false false).

(** Two bypass actors. *)
Definition cfgTwoActors : ResourceData :=
  configOf (("bypass_actors",
             (VSet [ actorElement 5 "RepositoryRole";
                     actorElement 13473 "Integration" ], true))
            :: scalarAnswers ++ toggleAnswers false false false false false).

(** Rule entries: a toggle rule has no parameters, a structured rule has. *)
Definition toggleRule (kind : string) : RepositoryRule :=
  {| RuleType := kind; Parameters := None |}.
Definition structuredRule (kind : string) (params : RawMessage) : RepositoryRule :=
  {| RuleType := kind; Parameters := Some params |}.

(** The toggle entries for the five flags, in the order of the kinds. *)
Definition toggleEntries (creation deletion linear signatures nonFF : bool)
  : list RepositoryRule :=
  (if creation then [toggleRule "creation"] else [])
  ++ (if deletion then [toggleRule "deletion"] else [])
  ++ (if linear then [toggleRule "required_linear_history"] else [])
  ++ (if signatures then [toggleRule "required_signatures"] else [])
  ++ (if nonFF then [toggleRule "non_fast_forward"] else []).

Definition structured_kinds : list string :=
  [ "required_deployments"; "pull_request"; "required_status_checks" ].

Definition isToggleEntry (r : RepositoryRule) : Prop :=
  RuleType r ∈ rules_toggleable /\ Parameters r = None.
Definition isStructuredEntry (r : RepositoryRule) : Prop :=
  RuleType r ∈ structured_kinds /\ Parameters r <> None.

(** How many entries of a kind a rule list has. *)
Definition countKind (kind : string) (rules : list RepositoryRule) : nat :=
  length (filter (fun r => RuleType r = kind) rules).

(** What a structured block emits: nothing, or one entry of its kind. *)
Definition emitsDeployments (l : list RepositoryRule) : Prop :=
  l = [] \/
  exists p, l = [structuredRule "required_deployments" (MarshalRequiredDeployment p)].
Definition emitsPullRequest (l : list RepositoryRule) : Prop :=
  l = [] \/
  exists p, l = [structuredRule "pull_request" (MarshalPullRequest p)].
Definition emitsStatusChecks (l : list RepositoryRule) : Prop :=
  l = [] \/
  exists p, l = [structuredRule "required_status_checks" (MarshalRequiredStatusChecks p)].

(** A [rule_pull_request] block with its five fields. *)
Definition pullRequestElement (dismiss owner lastPush : bool) (count : Z)
    (resolution : bool) : value :=
  VMap (<["dismiss_stale_reviews_on_push" := VBool dismiss]>
       (<["require_code_owner_review" := VBool owner]>
       (<["require_last_push_approval" := VBool lastPush]>
       (<["required_approving_review_count" := VInt count]>
       (<["required_review_thread_resolution" := VBool resolution]> ∅))))).

(** A [rule_required_status_checks] block with its tokens and its flag. *)
Definition statusChecksElement (tokens : list string) (strict : bool) : value :=
  VMap (<["required_status_checks" := VSet (VString <$> tokens)]>
       (<["strict_required_status_checks_policy" := VBool strict]> ∅)).

(** A configuration with three toggles on and the three structured blocks. *)
Definition cfgFull : ResourceData :=
  configOf
    (("rule_required_deployments", (VSet [VString "staging"; VString "production"], true))
     :: ("rule_pull_request",
         (VList [pullRequestElement true false true 2 false], true))
     :: ("rule_required_status_checks",
         (VList [statusChecksElement ["ci/a"; "ci/b:99"] true], true))
     :: scalarAnswers ++ toggleAnswers true false true false true).

Definition rulesFull : list RepositoryRule :=
  [ toggleRule "creation";
    toggleRule "required_linear_history";
    toggleRule "non_fast_forward";
    structuredRule "required_deployments"
      (MarshalRequiredDeployment
         {| RequiredDeploymentEnvironments := ["staging"; "production"] |});
    structuredRule "pull_request"
      (MarshalPullRequest
         {| DismissStaleReviewsOnPush := true;
            RequireCodeOwnerReview := false;
            RequireLastPushApproval := true;
            RequiredApprovingReviewCount := 2;
            RequiredReviewThreadResolution := false |});
    structuredRule "required_status_checks"
      (MarshalRequiredStatusChecks
         {| RequiredStatusChecks :=
              [ {| Context := "ci/a"; IntegrationID := None |};
                {| Context := "ci/b"; IntegrationID := Some 99 |} ];
            StrictRequiredStatusChecksPolicy := true |}) ].

(** Two environments in the [rule_required_deployments] set, nothing else. *)
Definition cfgTwoEnvs : ResourceData :=
  configOf
    (("rule_required_deployments", (VSet [VString "staging"; VString "production"], true))
     :: scalarAnswers ++ toggleAnswers false false false false false).

(** Two [rule_pull_request] blocks; two [rule_required_status_checks]
    blocks. *)
Definition cfgTwoPullRequests : ResourceData :=
  configOf
    (("rule_pull_request",
      (VList [ pullRequestElement true false true 2 false;
               pullRequestElement false false false 1 false ], true))
     :: scalarAnswers ++ toggleAnswers true false false false false).

Definition cfgTwoStatusChecks : ResourceData :=
  configOf
    (("rule_required_status_checks",
      (VList [ statusChecksElement ["ci/a"] true;
               statusChecksElement ["ci/b:99"] false ], true))
     :: scalarAnswers ++ toggleAnswers true false false false false).

(** A [rule_pull_request] list whose single block is null. *)
Definition cfgNullPullRequest : ResourceData :=
  configOf
    (("rule_pull_request", (VList [VNil], true))
     :: scalarAnswers ++ toggleAnswers false false false false false).

(** The configuration whose [conditions] block includes [refs/heads/main]
    and excludes nothing, the condition built from it and the request that
    carries the condition. *)
Definition cfgMain : ResourceData :=
  configOf (("conditions", (VList [conditionsElement ["refs/heads/main"] []], true))
            :: scalarAnswers ++ toggleAnswers false false false false false).

Definition builtMain : RulesetRefConditionParameters :=
  {| Include := ["refs/heads/main"]; Exclude := [] |}.

Definition reqMain : Ruleset :=
  {| Name := "protect-main";
     Target := Some "branch";
     SourceType := None;
     Enforcement := "active";
     BypassActors := None;
     Conditions := Some {| RefName := Some builtMain |};
     Rules := [] |}.

(** The block the flattener writes for a condition. *)
Definition flatBlock (refName : RulesetRefConditionParameters) : gmap string value :=
  <["include" := VStrings (Include refName)]>
    (<["exclude" := VStrings (Exclude refName)]> ∅).

(** Reading back what was written. The SDK hands a string slice that was
    written to a set-typed field back as a set: no string twice, the same
    strings, in an order of its own. *)
Definition setOf (l : list string) (v : value) : Prop :=
  exists l' : list string,
    v = VSet (VString <$> l') /\ NoDup l' /\ forall x, x ∈ l' <-> x ∈ l.

Definition readsAs (m m' : gmap string value) : Prop :=
  (exists l v, m !! "include" = Some (VStrings l) /\
               m' !! "include" = Some v /\ setOf l v) /\
  (exists l v, m !! "exclude" = Some (VStrings l) /\
               m' !! "exclude" = Some v /\ setOf l v).

(** ** Vocabulary of the further properties *)

(** The error of the [default] branch at line 206. *)
Definition MalformedCheckToken (token : string) : error :=
  "could not parse check '" +:+ token
  +:+ "'. Expected `context:integration_id` or `context`".

(** The eight rule kinds in the order the code goes through them. *)
Definition all_kinds : list string := rules_toggleable ++ structured_kinds.

(** The last character of a string. *)
Fixpoint last_char (s : string) : option ascii :=
  match s with
  | EmptyString => None
  | String c EmptyString => Some c
  | String _ s' => last_char s'
  end.

(** Values of the dynamic types that the type assertions ask for. *)
Definition isBool (v : value) : bool :=
  match v with VBool _ => true | _ => false end.
Definition isInt (v : value) : bool :=
  match v with VInt _ => true | _ => false end.
Definition isString (v : value) : bool :=
  match v with VString _ => true | _ => false end.

(** A configuration on which no type assertion of [expandBypassActors]
    fails. *)
Definition conformsActor (v : value) : bool :=
  match v with
  | VMap m => isInt (index m "actor_id") && isString (index m "actor_type")
  | _ => false
  end.

Definition conformsActors (d : ResourceData) : bool :=
  let '(v, ok) := GetOk d "bypass_actors" in
  if ok then match v with VSet l => forallb conformsActor l | _ => false end
  else true.

(** A configuration on which no type assertion of [expandRules] fails. *)
Definition conformsToggles (d : ResourceData) : bool :=
  forallb (fun ruleName => isBool (Get d (rule_key ruleName))) rules_toggleable.

Definition conformsDeployments (d : ResourceData) : bool :=
  let '(v, ok) := GetOk d "rule_required_deployments" in
  if ok then match v with VSet l => forallb isString l | _ => false end
  else true.

Definition conformsPullRequestElement (v : value) : bool :=
  match v with
  | VNil => true
  | VMap m =>
      isBool (index m "dismiss_stale_reviews_on_push")
      && isBool (index m "require_code_owner_review")
      && isBool (index m "require_last_push_approval")
      && isInt (index m "required_approving_review_count")
      && isBool (index m "required_review_thread_resolution")
  | _ => false
  end.

Definition conformsPullRequest (d : ResourceData) : bool :=
  let '(v, ok) := GetOk d "rule_pull_request" in
  if ok then
    match v with VList l => forallb conformsPullRequestElement l | _ => false end
  else true.

Definition conformsStatusChecksElement (v : value) : bool :=
  match v with
  | VNil => true
  | VMap m =>
      match index m "required_status_checks" with
      | VSet toks => forallb isString toks
      | _ => false
      end
      && isBool (index m "strict_required_status_checks_policy")
  | _ => false
  end.

Definition conformsStatusChecks (d : ResourceData) : bool :=
  let '(v, ok) := GetOk d "rule_required_status_checks" in
  if ok then
    match v with VList l => forallb conformsStatusChecksElement l | _ => false end
  else true.

Definition conformsRules (d : ResourceData) : bool :=
  conformsToggles d && conformsDeployments d
  && conformsPullRequest d && conformsStatusChecks d.

(** Two [conditions] blocks and two [rule_pull_request] blocks at once. *)
Definition cfgTwoOfBoth : ResourceData :=
  configOf
    (("conditions",
      (VList [ conditionsElement ["refs/heads/main"] [];
               conditionsElement ["refs/heads/dev"] [] ], true))
     :: ("rule_pull_request",
         (VList [ pullRequestElement true false true 2 false;
                  pullRequestElement false false false 1 false ], true))
     :: scalarAnswers ++ toggleAnswers true false false false false).

(** Status checks whose second token has no integer after its colon; the
    element after it is no string at all, and the block has no policy
    flag. *)
Definition cfgBadToken : ResourceData :=
  configOf
    (("rule_required_status_checks",
      (VList [ VMap (<["required_status_checks" :=
                        VSet [VString "ci/a"; VString "ci/b:x"; VInt 7]]> ∅) ],
       true))
     :: scalarAnswers ++ toggleAnswers true false false false false).

(** An element of the [bypass_actors] set as [expandBypassActors] reads it,
    next to the actor made of it. *)
Definition readsActor (v : value) (a : BypassActor) : Prop :=
  exists (m : gmap string value) (id : Z) (ty : string),
    v = VMap m /\
    index m "actor_id" = VInt id /\ index m "actor_type" = VString ty /\
    a = {| ActorID := Some (int64 id); ActorType := Some ty |}.

(** ** Proof steps *)

(** Case analysis on the call a hypothesis is stuck at. *)
Ltac step_in H :=
  match type of H with
  | (match ?r with _ => _ end) = _ =>
      let E := fresh "E" in
      destruct r eqn:E; cbn [mbind result_bind] in H; try discriminate H
  | (?r ≫= _) = _ =>
      let E := fresh "E" in
      destruct r eqn:E; cbn [mbind result_bind] in H; try discriminate H
  | (if ?b then _ else _) = _ =>
      let E := fresh "E" in
      destruct b eqn:E; try discriminate H
  end.

(* ================================================================== *)
(** * Properties *)

(** ** Outcomes *)

Lemma int64_inInt64 (n : Z) : inInt64 n -> int64 n = n.
Proof.
  unfold inInt64, int64, minInt64, maxInt64; intros H.
  rewrite Z.mod_small; lia.
Qed.

(** ** Splitting at the first colon *)

Lemma append_nil (b : string) : EmptyString +:+ b = b.
Proof. reflexivity. Qed.

Lemma append_cons (x : ascii) (a b : string) :
  String x a +:+ b = String x (a +:+ b).
Proof. reflexivity. Qed.

Lemma append_assoc (a b c : string) : (a +:+ b) +:+ c = a +:+ (b +:+ c).
Proof.
  induction a as [|x a IH]; [done|]. by rewrite !append_cons, IH.
Qed.

Lemma length_append (a b : string) :
  String.length (a +:+ b) = (String.length a + String.length b)%nat.
Proof.
  induction a as [|x a IH]; [done|]. rewrite append_cons. simpl. by rewrite IH.
Qed.

Lemma take_app (a b : string) : strings.take (String.length a) (a +:+ b) = a.
Proof.
  induction a as [|c a IH].
  - rewrite append_nil. by destruct b.
  - rewrite append_cons. simpl. by rewrite IH.
Qed.

Lemma drop_app (a b : string) : strings.drop (String.length a) (a +:+ b) = b.
Proof.
  induction a as [|c a IH].
  - rewrite append_nil. by destruct b.
  - rewrite append_cons. simpl. exact IH.
Qed.

Lemma Index_no_colon (s : string) :
  no_colon s = true -> strings.Index s ":" = None.
Proof.
  induction s as [|c s IH]; cbn [no_colon strings.Index String.prefix]; [done|].
  intros [Hc Hs]%andb_prop.
  destruct (ascii_dec ":" c) as [<-|_]; [done|].
  rewrite (IH Hs); done.
Qed.

Lemma Index_first_colon (ctx rest : string) :
  no_colon ctx = true ->
  strings.Index (ctx +:+ ":" +:+ rest) ":" = Some (String.length ctx).
Proof.
  induction ctx as [|c ctx IH]; cbn [no_colon].
  - intros _. rewrite append_nil, append_cons. cbn [strings.Index String.prefix].
    destruct (ascii_dec ":" ":"); [|done]. by destruct (_ +:+ _).
  - intros [Hc Hs]%andb_prop.
    rewrite append_cons.
    cbn [strings.Index String.prefix String.length].
    destruct (ascii_dec ":" c) as [<-|_]; [done|].
    rewrite (IH Hs); done.
Qed.

Lemma SplitN_no_colon (s : string) :
  no_colon s = true -> strings.SplitN s ":" 2 = [s].
Proof. intros H. cbn. by rewrite Index_no_colon. Qed.

Lemma SplitN_first_colon (ctx rest : string) :
  no_colon ctx = true ->
  strings.SplitN (ctx +:+ ":" +:+ rest) ":" 2 = [ctx; rest].
Proof.
  intros H. cbn [strings.SplitN strings.genSplit].
  rewrite (Index_first_colon _ _ H), take_app.
  replace (String.length ctx + String.length ":")%nat
    with (String.length (ctx +:+ ":")).
  - by rewrite <- append_assoc, drop_app.
  - by rewrite length_append.
Qed.

Lemma first_colon (s : string) :
  no_colon s = true \/
  exists ctx rest, s = ctx +:+ ":" +:+ rest /\ no_colon ctx = true.
Proof.
  induction s as [|c s [IH|(ctx & rest & -> & IH)]]; cbn [no_colon].
  - by left.
  - destruct (Ascii.eqb_spec c ":") as [->|Hc].
    + right. exists EmptyString, s. done.
    + left. by rewrite IH.
  - destruct (Ascii.eqb_spec c ":") as [->|Hc].
    + right. by exists EmptyString, (ctx +:+ ":" +:+ rest).
    + right. exists (String c ctx), rest. cbn [no_colon]. split; [done|].
      rewrite IH. by destruct (Ascii.eqb_spec c ":").
Qed.

Lemma Atoi_inInt64 (s : string) (n : Z) : strconv.Atoi s = Some n -> inInt64 n.
Proof.
  unfold strconv.Atoi. destruct s as [|c s]; [done|].
  set (neg := Ascii.eqb c "-").
  set (body := if neg || Ascii.eqb c "+" then s else String c s).
  destruct body; [done|].
  destruct (strconv.digits _ 0) as [m|]; [|done]. cbn.
  destruct (_ && _) eqn:E; [|done]. intros [= <-].
  apply andb_prop in E as [?%Z.leb_le ?%Z.leb_le]. done.
Qed.

(** ** The status-check token parser *)

(** C2, counterexample. The token [ci/test:] splits into two parts, its
    second part is empty and is no base-10 integer, and still the parser
    does not fail: it answers with the context alone. *)
Lemma parseStatusCheck_trailing_colon :
  strings.SplitN tokenTrailingColon ":" 2 = ["ci/test"; EmptyString] /\
  strconv.Atoi EmptyString = None /\
  parseStatusCheck (VString tokenTrailingColon)
    = Ok {| Context := "ci/test"; IntegrationID := None |} /\
  parseStatusCheck (VString tokenTrailingColon)
    <> Err (InvalidIntegrationId EmptyString).
Proof. repeat split; try reflexivity. discriminate. Qed.

(** C2, as the code has it. Every token either has no colon, and then it is
    the context and there is no integration id; or it is [ctx:rest] with no
    colon in [ctx], and then [ctx] is the context and: an empty [rest] gives
    no integration id; any other [rest] has to be a base-10 integer, which
    becomes the integration id, and the parser fails with
    [InvalidIntegrationId rest] if it is not one. The three examples of the
    specification follow. *)
Theorem parseStatusCheck_token :
  (forall token : string,
      no_colon token = true \/
      exists ctx rest, token = ctx +:+ ":" +:+ rest /\ no_colon ctx = true) /\
  (forall token : string,
      no_colon token = true ->
      strings.SplitN token ":" 2 = [token] /\
      parseStatusCheck (VString token)
        = Ok {| Context := token; IntegrationID := None |}) /\
  (forall ctx rest : string,
      no_colon ctx = true ->
      strings.SplitN (ctx +:+ ":" +:+ rest) ":" 2 = [ctx; rest] /\
      parseStatusCheck (VString (ctx +:+ ":" +:+ rest))
        = if String.eqb rest EmptyString
          then Ok {| Context := ctx; IntegrationID := None |}
          else match strconv.Atoi rest with
               | Some n => Ok {| Context := ctx; IntegrationID := Some n |}
               | None => Err (InvalidIntegrationId rest)
               end) /\
  parseStatusCheck (VString tokenWithId)
    = Ok {| Context := "ci/test"; IntegrationID := Some 12345 |} /\
  parseStatusCheck (VString tokenPlain)
    = Ok {| Context := "ci/test"; IntegrationID := None |} /\
  parseStatusCheck (VString tokenBadId) = Err (InvalidIntegrationId "abc").
Proof.
  split; [exact first_colon|].
  split; [|split; [|repeat split; reflexivity]].
  - intros token H. split; [by apply SplitN_no_colon|].
    unfold parseStatusCheck. cbn [as_string mbind result_bind].
    by rewrite (SplitN_no_colon _ H).
  - intros ctx rest H. split; [by apply SplitN_first_colon|].
    unfold parseStatusCheck. cbn [as_string mbind result_bind].
    rewrite (SplitN_first_colon _ _ H). cbn [mbind result_bind].
    destruct (String.eqb rest EmptyString); cbn [negb]; [done|].
    destruct (strconv.Atoi rest) as [n|] eqn:E; [|done].
    by rewrite (int64_inInt64 _ (Atoi_inInt64 _ _ E)).
Qed.

(** The parser at [ci/test:99]. *)
Lemma parseStatusCheck_token_witness :
  no_colon "ci/test" = true /\
  parseStatusCheck (VString ("ci/test" +:+ ":" +:+ "99"))
    = Ok {| Context := "ci/test"; IntegrationID := Some 99 |}.
Proof.
  split; [reflexivity|].
  exact (proj2 (proj1 (proj2 (proj2 parseStatusCheck_token))
                  "ci/test" "99" eq_refl)).
Defined.

(** ** The condition builder *)

(** C8. More than one [conditions] block fails with
    [DuplicateConditionsBlock], whatever the blocks are: the count is checked
    before any block is looked at, so two null blocks fail as well. A block
    that is not set gives no condition. A list whose single block is null
    gives no condition either, which is not the empty condition. *)
Theorem expandConditions_cases :
  (forall (d : ResourceData) (vL : list value),
      GetOk d "conditions" = (VList vL, true) -> (1 < length vL)%nat ->
      expandConditions d = Err DuplicateConditionsBlock) /\
  (forall (d : ResourceData) (vL : list value),
      GetOk d "conditions" = (VList (VNil :: VNil :: vL), true) ->
      expandConditions d = Err DuplicateConditionsBlock) /\
  (forall (d : ResourceData) (v : value),
      GetOk d "conditions" = (v, false) -> expandConditions d = Ok None) /\
  (forall d : ResourceData,
      GetOk d "conditions" = (VList [VNil], true) ->
      expandConditions d = Ok None /\
      expandConditions d <> Ok (Some {| Include := []; Exclude := [] |})).
Proof.
  assert (Hdup : forall d vL,
             GetOk d "conditions" = (VList vL, true) -> (1 < length vL)%nat ->
             expandConditions d = Err DuplicateConditionsBlock).
  { intros d vL Hd Hlen. unfold expandConditions. rewrite Hd.
    cbn [as_list mbind result_bind].
    apply Nat.ltb_lt in Hlen. by rewrite Hlen. }
  split; [exact Hdup|]. split; [|split].
  - intros d vL Hd. apply (Hdup _ _ Hd). simpl. lia.
  - intros d v Hd. unfold expandConditions. by rewrite Hd.
  - intros d Hd. unfold expandConditions. rewrite Hd. by split.
Qed.

(** The builder on two blocks, on no block and on a null block. *)
Lemma expandConditions_cases_witness :
  expandConditions cfgTwoConditions = Err DuplicateConditionsBlock /\
  expandConditions cfgPlain = Ok None /\
  expandConditions cfgNullConditions = Ok None.
Proof.
  destruct expandConditions_cases as (Hdup & _ & Hunset & Hnull).
  split; [|split].
  - eapply Hdup; [reflexivity | simpl; lia].
  - eapply Hunset. reflexivity.
  - apply Hnull. reflexivity.
Defined.

(** ** The bypass-actor builder *)

Lemma bypassActorsLoop_actors (vL : list value) (actors acc : list BypassActor) :
  Forall2 actorOf vL actors ->
  bypassActorsLoop vL acc = Ok (acc ++ actors).
Proof.
  intros H. revert acc.
  induction H as [|v a vL actors (m & id & ty & -> & Hid & Hin & Hty & ->) _ IH];
    intros acc.
  - by rewrite app_nil_r.
  - cbn [bypassActorsLoop as_map mbind result_bind]. unfold index.
    rewrite Hid, Hty. simpl.
    rewrite (int64_inInt64 _ Hin), IH, <- app_assoc. done.
Qed.

Lemma bypassActorsLoop_length (vL : list value) (acc actors : list BypassActor) :
  bypassActorsLoop vL acc = Ok actors ->
  length actors = (length acc + length vL)%nat.
Proof.
  revert acc. induction vL as [|v vL IH]; intros acc H.
  - injection H as <-. cbn. lia.
  - cbn [bypassActorsLoop] in H. do 3 step_in H.
    apply IH in H. rewrite H, length_app. cbn. lia.
Qed.

(** C9, counterexample. A [bypass_actors] block that is present and empty
    reaches the builder as the empty set reported as not set, and the
    builder returns nil for it, not the empty sequence. *)
Lemma expandBypassActors_present_and_empty :
  GetOk cfgEmptyActors "bypass_actors" = (VSet [], false) /\
  expandBypassActors cfgEmptyActors = Ok None /\
  expandBypassActors cfgEmptyActors <> Ok (Some []).
Proof. repeat split; try reflexivity. discriminate. Qed.

(** C9, as the code has it. When [bypass_actors] is reported as not set the
    builder returns nil; this is so for a block that is absent and for a
    block that is present and empty, which is the empty set reported as not
    set. The empty sequence is returned on no answer but the empty set
    reported as set. When the block is set the builder returns, element by
    element, one actor with the integer id and the string type that the
    element supplies. *)
Theorem expandBypassActors_cases :
  (forall (d : ResourceData) (v : value),
      GetOk d "bypass_actors" = (v, false) -> expandBypassActors d = Ok None) /\
  (forall d : ResourceData,
      GetOk d "bypass_actors" = (VSet [], false) ->
      expandBypassActors d = Ok None /\ expandBypassActors d <> Ok (Some [])) /\
  (forall d : ResourceData,
      GetOk d "bypass_actors" <> (VSet [], true) ->
      expandBypassActors d <> Ok (Some [])) /\
  (forall (d : ResourceData) (vL : list value) (actors : list BypassActor),
      GetOk d "bypass_actors" = (VSet vL, true) ->
      Forall2 actorOf vL actors ->
      expandBypassActors d = Ok (Some actors) /\ length actors = length vL).
Proof.
  split; [|split; [|split]].
  - intros d v Hd. unfold expandBypassActors. by rewrite Hd.
  - intros d Hd. unfold expandBypassActors. rewrite Hd. by split.
  - intros d Hd H. unfold expandBypassActors in H.
    destruct (GetOk d "bypass_actors") as [v [|]]; [|done].
    destruct v as [| | | | | |vL|]; try done.
    cbn [Set_List mbind result_bind] in H. step_in H. injection H as ->.
    apply bypassActorsLoop_length in E. by destruct vL.
  - intros d vL actors Hd Hactors. split.
    + unfold expandBypassActors. rewrite Hd. cbn [Set_List mbind result_bind].
      by rewrite (bypassActorsLoop_actors _ _ _ Hactors).
    + symmetry. by eapply Forall2_length.
Qed.

(** The builder on no block, on a present and empty block and on two
    actors. *)
Lemma expandBypassActors_cases_witness :
  expandBypassActors cfgPlain = Ok None /\
  expandBypassActors cfgEmptyActors = Ok None /\
  expandBypassActors cfgTwoActors <> Ok (Some []) /\
  expandBypassActors cfgTwoActors
    = Ok (Some [ {| ActorID := Some 5; ActorType := Some "RepositoryRole" |};
                 {| ActorID := Some 13473; ActorType := Some "Integration" |} ]).
Proof.
  destruct expandBypassActors_cases as (Hunset & Hempty & Hnever & Hset).
  split; [|split; [|split]].
  - eapply Hunset. reflexivity.
  - apply Hempty. reflexivity.
  - apply Hnever. discriminate.
  - eapply Hset; [reflexivity|].
    repeat constructor.
    + exists (<["actor_id" := VInt 5]> (<["actor_type" := VString "RepositoryRole"]> ∅)),
        5, "RepositoryRole".
      repeat split; vm_compute; congruence.
    + exists (<["actor_id" := VInt 13473]> (<["actor_type" := VString "Integration"]> ∅)),
        13473, "Integration".
      repeat split; vm_compute; congruence.
Defined.

(** ** The rule builder, block by block *)

(** Every block appends to the list it is given and looks at nothing of
    it. *)
Lemma toggleLoop_acc (d : ResourceData) (names : list string)
    (acc : list RepositoryRule) :
  toggleLoop d names acc = (x ← toggleLoop d names []; Ok (acc ++ x)).
Proof.
  revert acc. induction names as [|n names IH]; intros acc.
  - cbn. by rewrite app_nil_r.
  - cbn [toggleLoop].
    destruct (as_bool (Get d (rule_key n))) as [[|]| |]; cbn [mbind result_bind];
      [|exact (IH acc)|done|done].
    rewrite (IH (acc ++ _)), (IH ([] ++ _)).
    destruct (toggleLoop d names []) as [x| |]; cbn [mbind result_bind]; [|done|done].
    by rewrite <- app_assoc.
Qed.

Lemma requiredDeploymentsBlock_acc (d : ResourceData) (acc : list RepositoryRule) :
  requiredDeploymentsBlock d acc
  = (x ← requiredDeploymentsBlock d []; Ok (acc ++ x)).
Proof.
  unfold requiredDeploymentsBlock.
  destruct (GetOk d "rule_required_deployments") as [v [|]];
    [|cbn; by rewrite app_nil_r].
  destruct (Set_List v) as [l| |]; cbn [mbind result_bind]; [|done|done].
  by destruct (deploymentEnvsLoop l []).
Qed.

Lemma pullRequestLoop_acc (vL : list value) (acc : list RepositoryRule) :
  pullRequestLoop vL acc = (x ← pullRequestLoop vL []; Ok (acc ++ x)).
Proof.
  revert acc. induction vL as [|v vL IH]; intros acc.
  - cbn. by rewrite app_nil_r.
  - cbn [pullRequestLoop]. destruct (isNil v); [cbn; by rewrite app_nil_r|].
    destruct (as_map v) as [m| |]; cbn [mbind result_bind]; [|done|done].
    repeat match goal with
           | |- context [as_bool ?x] =>
               destruct (as_bool x); cbn [mbind result_bind]; [|done|done]
           | |- context [as_int ?x] =>
               destruct (as_int x); cbn [mbind result_bind]; [|done|done]
           end.
    rewrite (IH (acc ++ _)), (IH ([] ++ _)).
    destruct (pullRequestLoop vL []) as [x| |]; cbn [mbind result_bind]; [|done|done].
    by rewrite <- app_assoc.
Qed.

Lemma pullRequestBlock_acc (d : ResourceData) (acc : list RepositoryRule) :
  pullRequestBlock d acc = (x ← pullRequestBlock d []; Ok (acc ++ x)).
Proof.
  unfold pullRequestBlock.
  destruct (GetOk d "rule_pull_request") as [v [|]];
    [|cbn; by rewrite app_nil_r].
  destruct (as_list v) as [vL| |]; cbn [mbind result_bind]; [|done|done].
  destruct (1 <? length vL)%nat; [done|]. apply pullRequestLoop_acc.
Qed.

Lemma requiredStatusChecksLoop_acc (vL : list value) (acc : list RepositoryRule) :
  requiredStatusChecksLoop vL acc
  = (x ← requiredStatusChecksLoop vL []; Ok (acc ++ x)).
Proof.
  revert acc. induction vL as [|v vL IH]; intros acc.
  - cbn. by rewrite app_nil_r.
  - cbn [requiredStatusChecksLoop].
    destruct (isNil v); [cbn; by rewrite app_nil_r|].
    destruct (as_map v) as [m| |]; cbn [mbind result_bind]; [|done|done].
    destruct (Set_List _) as [toks| |]; cbn [mbind result_bind]; [|done|done].
    destruct (statusChecksLoop toks []) as [checks| |];
      cbn [mbind result_bind]; [|done|done].
    destruct (as_bool _) as [strict| |]; cbn [mbind result_bind]; [|done|done].
    rewrite (IH (acc ++ _)), (IH ([] ++ _)).
    destruct (requiredStatusChecksLoop vL []) as [x| |];
      cbn [mbind result_bind]; [|done|done].
    by rewrite <- app_assoc.
Qed.

Lemma requiredStatusChecksBlock_acc (d : ResourceData) (acc : list RepositoryRule) :
  requiredStatusChecksBlock d acc
  = (x ← requiredStatusChecksBlock d []; Ok (acc ++ x)).
Proof.
  unfold requiredStatusChecksBlock.
  destruct (GetOk d "rule_required_status_checks") as [v [|]];
    [|cbn; by rewrite app_nil_r].
  destruct (as_list v) as [vL| |]; cbn [mbind result_bind]; [|done|done].
  destruct (1 <? length vL)%nat; [done|]. apply requiredStatusChecksLoop_acc.
Qed.

(** [expandRules] is the four blocks one after the other, each emitting its
    own entries. *)
Lemma expandRules_blocks (d : ResourceData) :
  expandRules d
  = (tog ← toggleLoop d rules_toggleable [];
     dep ← requiredDeploymentsBlock d [];
     pr ← pullRequestBlock d [];
     sc ← requiredStatusChecksBlock d [];
     Ok (tog ++ dep ++ pr ++ sc)).
Proof.
  unfold expandRules.
  destruct (toggleLoop d rules_toggleable []) as [tog| |];
    cbn [mbind result_bind]; [|done|done].
  rewrite requiredDeploymentsBlock_acc.
  destruct (requiredDeploymentsBlock d []) as [dep| |];
    cbn [mbind result_bind]; [|done|done].
  rewrite pullRequestBlock_acc.
  destruct (pullRequestBlock d []) as [pr| |];
    cbn [mbind result_bind]; [|done|done].
  rewrite requiredStatusChecksBlock_acc.
  destruct (requiredStatusChecksBlock d []) as [sc| |];
    cbn [mbind result_bind]; [|done|done].
  by rewrite <- !app_assoc.
Qed.

Lemma toggleLoop_entries (d : ResourceData) (names : list string)
    (tog : list RepositoryRule) :
  toggleLoop d names [] = Ok tog ->
  Forall (fun r => RuleType r ∈ names /\ Parameters r = None) tog.
Proof.
  revert tog. induction names as [|n names IH]; intros tog H.
  - injection H as <-. constructor.
  - cbn [toggleLoop] in H. step_in H. step_in H.
    + rewrite toggleLoop_acc in H. step_in H. injection H as <-.
      constructor; [split; [left|done]|].
      eapply Forall_impl; [by apply IH|].
      intros r [? ?]. split; [by right|done].
    + eapply Forall_impl; [by apply IH|].
      intros r [? ?]. split; [by right|done].
Qed.

Lemma toggleLoop_five (d : ResourceData) (b1 b2 b3 b4 b5 : bool) :
  Get d "rule_creation" = VBool b1 ->
  Get d "rule_deletion" = VBool b2 ->
  Get d "rule_required_linear_history" = VBool b3 ->
  Get d "rule_required_signatures" = VBool b4 ->
  Get d "rule_non_fast_forward" = VBool b5 ->
  toggleLoop d rules_toggleable [] = Ok (toggleEntries b1 b2 b3 b4 b5).
Proof.
  intros H1 H2 H3 H4 H5. unfold rules_toggleable. cbn [toggleLoop].
  change (rule_key "creation") with "rule_creation".
  change (rule_key "deletion") with "rule_deletion".
  change (rule_key "required_linear_history") with "rule_required_linear_history".
  change (rule_key "required_signatures") with "rule_required_signatures".
  change (rule_key "non_fast_forward") with "rule_non_fast_forward".
  rewrite H1. destruct b1; cbn [as_bool mbind result_bind toggleLoop];
  rewrite H2; destruct b2; cbn [as_bool mbind result_bind toggleLoop];
  rewrite H3; destruct b3; cbn [as_bool mbind result_bind toggleLoop];
  rewrite H4; destruct b4; cbn [as_bool mbind result_bind toggleLoop];
  rewrite H5; destruct b5; reflexivity.
Qed.

Lemma requiredDeploymentsBlock_emits (d : ResourceData) (dep : list RepositoryRule) :
  requiredDeploymentsBlock d [] = Ok dep -> emitsDeployments dep.
Proof.
  unfold requiredDeploymentsBlock. intros H.
  destruct (GetOk d "rule_required_deployments") as [v [|]].
  - do 2 step_in H. injection H as <-. right. eexists. reflexivity.
  - injection H as <-. by left.
Qed.

Lemma pullRequestLoop_emits (vL : list value) (pr : list RepositoryRule) :
  (length vL <= 1)%nat -> pullRequestLoop vL [] = Ok pr -> emitsPullRequest pr.
Proof.
  destruct vL as [|v [|? ?]]; cbn [length]; [| |lia]; intros _ H.
  - injection H as <-. by left.
  - cbn [pullRequestLoop] in H. step_in H.
    + injection H as <-. by left.
    + do 6 step_in H. injection H as <-. right. eexists. reflexivity.
Qed.

Lemma pullRequestBlock_emits (d : ResourceData) (pr : list RepositoryRule) :
  pullRequestBlock d [] = Ok pr -> emitsPullRequest pr.
Proof.
  unfold pullRequestBlock. intros H.
  destruct (GetOk d "rule_pull_request") as [v [|]].
  - do 2 step_in H. apply Nat.ltb_ge in E0.
    by eapply pullRequestLoop_emits.
  - injection H as <-. by left.
Qed.

Lemma requiredStatusChecksLoop_emits (vL : list value) (sc : list RepositoryRule) :
  (length vL <= 1)%nat ->
  requiredStatusChecksLoop vL [] = Ok sc -> emitsStatusChecks sc.
Proof.
  destruct vL as [|v [|? ?]]; cbn [length]; [| |lia]; intros _ H.
  - injection H as <-. by left.
  - cbn [requiredStatusChecksLoop] in H. step_in H.
    + injection H as <-. by left.
    + do 4 step_in H. injection H as <-. right. eexists. reflexivity.
Qed.

Lemma requiredStatusChecksBlock_emits (d : ResourceData) (sc : list RepositoryRule) :
  requiredStatusChecksBlock d [] = Ok sc -> emitsStatusChecks sc.
Proof.
  unfold requiredStatusChecksBlock. intros H.
  destruct (GetOk d "rule_required_status_checks") as [v [|]].
  - do 2 step_in H. apply Nat.ltb_ge in E0.
    by eapply requiredStatusChecksLoop_emits.
  - injection H as <-. by left.
Qed.

(** A successful [expandRules] took the four blocks in turn. *)
Lemma expandRules_Ok (d : ResourceData) (rules : list RepositoryRule) :
  expandRules d = Ok rules ->
  exists tog dep pr sc,
    toggleLoop d rules_toggleable [] = Ok tog /\
    requiredDeploymentsBlock d [] = Ok dep /\
    pullRequestBlock d [] = Ok pr /\
    requiredStatusChecksBlock d [] = Ok sc /\
    rules = tog ++ dep ++ pr ++ sc.
Proof.
  rewrite expandRules_blocks. intros H. do 4 step_in H.
  injection H as <-. eauto 10.
Qed.

(** ** Counting the entries of a kind *)

Lemma countKind_app (kind : string) (l1 l2 : list RepositoryRule) :
  countKind kind (l1 ++ l2) = (countKind kind l1 + countKind kind l2)%nat.
Proof. unfold countKind. by rewrite filter_app, length_app. Qed.

Lemma countKind_other (kind : string) (kinds : list string)
    (l : list RepositoryRule) :
  kind ∉ kinds ->
  Forall (fun r => RuleType r ∈ kinds /\ Parameters r = None) l ->
  countKind kind l = 0%nat.
Proof.
  intros Hk. unfold countKind. induction 1 as [|r l [Hr _] _ IH]; [done|].
  rewrite filter_cons_False; [done|]. by intros <-.
Qed.

Lemma countKind_deployments (kind : string) (l : list RepositoryRule) :
  emitsDeployments l ->
  countKind kind l
  = if decide (kind = "required_deployments") then length l else 0%nat.
Proof.
  intros [->|[p ->]]; [by destruct (decide _)|].
  unfold countKind. cbn [structuredRule].
  destruct (decide _) as [->|Hk]; [done|].
  rewrite filter_cons_False; [done|]. cbn. congruence.
Qed.

Lemma countKind_pullRequest (kind : string) (l : list RepositoryRule) :
  emitsPullRequest l ->
  countKind kind l = if decide (kind = "pull_request") then length l else 0%nat.
Proof.
  intros [->|[p ->]]; [by destruct (decide _)|].
  unfold countKind. cbn [structuredRule].
  destruct (decide _) as [->|Hk]; [done|].
  rewrite filter_cons_False; [done|]. cbn. congruence.
Qed.

Lemma countKind_statusChecks (kind : string) (l : list RepositoryRule) :
  emitsStatusChecks l ->
  countKind kind l
  = if decide (kind = "required_status_checks") then length l else 0%nat.
Proof.
  intros [->|[p ->]]; [by destruct (decide _)|].
  unfold countKind. cbn [structuredRule].
  destruct (decide _) as [->|Hk]; [done|].
  rewrite filter_cons_False; [done|]. cbn. congruence.
Qed.

Lemma emits_structured (dep pr sc : list RepositoryRule) :
  emitsDeployments dep -> emitsPullRequest pr -> emitsStatusChecks sc ->
  Forall isStructuredEntry (dep ++ pr ++ sc).
Proof.
  intros [->|[p1 ->]] [->|[p2 ->]] [->|[p3 ->]]; cbn [app];
    repeat constructor;
    try (unfold structured_kinds; cbn; set_solver); done.
Qed.

(** ** The order of the rule entries *)

(** C5. Whatever the five toggles are set to, the toggle loop emits one
    entry without parameters for each toggle that is on and none for a toggle
    that is off, in the order creation, deletion, required_linear_history,
    required_signatures, non_fast_forward. Every rule list that is returned
    starts with these entries, what follows them are structured entries
    only, and the list has one entry of a toggle's kind if the toggle is on
    and none if it is off. With no structured block set the list is returned
    and holds exactly these entries. *)
Theorem expandRules_toggles (d : ResourceData) (b1 b2 b3 b4 b5 : bool) :
  Get d "rule_creation" = VBool b1 ->
  Get d "rule_deletion" = VBool b2 ->
  Get d "rule_required_linear_history" = VBool b3 ->
  Get d "rule_required_signatures" = VBool b4 ->
  Get d "rule_non_fast_forward" = VBool b5 ->
  toggleLoop d rules_toggleable [] = Ok (toggleEntries b1 b2 b3 b4 b5) /\
  Forall isToggleEntry (toggleEntries b1 b2 b3 b4 b5) /\
  (forall rules : list RepositoryRule,
      expandRules d = Ok rules ->
      (exists structured,
          rules = toggleEntries b1 b2 b3 b4 b5 ++ structured /\
          Forall isStructuredEntry structured) /\
      countKind "creation" rules = Nat.b2n b1 /\
      countKind "deletion" rules = Nat.b2n b2 /\
      countKind "required_linear_history" rules = Nat.b2n b3 /\
      countKind "required_signatures" rules = Nat.b2n b4 /\
      countKind "non_fast_forward" rules = Nat.b2n b5) /\
  ((GetOk d "rule_required_deployments").2 = false ->
   (GetOk d "rule_pull_request").2 = false ->
   (GetOk d "rule_required_status_checks").2 = false ->
   expandRules d = Ok (toggleEntries b1 b2 b3 b4 b5)).
Proof.
  intros H1 H2 H3 H4 H5.
  pose proof (toggleLoop_five d _ _ _ _ _ H1 H2 H3 H4 H5) as Htog.
  split; [exact Htog|]. split; [|split].
  - destruct b1, b2, b3, b4, b5; cbn; repeat constructor;
      try (unfold rules_toggleable; set_solver).
  - intros rules (tog & dep & pr & sc & Ht & Hd & Hp & Hs & ->)%expandRules_Ok.
    rewrite Htog in Ht. injection Ht as <-.
    apply requiredDeploymentsBlock_emits in Hd.
    apply pullRequestBlock_emits in Hp.
    apply requiredStatusChecksBlock_emits in Hs.
    split; [exists (dep ++ pr ++ sc); split; [done|by apply emits_structured]|].
    rewrite !countKind_app,
      !(countKind_deployments _ _ Hd), !(countKind_pullRequest _ _ Hp),
      !(countKind_statusChecks _ _ Hs).
    destruct b1, b2, b3, b4, b5; repeat split; reflexivity.
  - intros Hd Hp Hs. rewrite expandRules_blocks, Htog.
    unfold requiredDeploymentsBlock, pullRequestBlock, requiredStatusChecksBlock.
    destruct (GetOk d "rule_required_deployments") as [? ?]; cbn in Hd; subst.
    destruct (GetOk d "rule_pull_request") as [? ?]; cbn in Hp; subst.
    destruct (GetOk d "rule_required_status_checks") as [? ?]; cbn in Hs; subst.
    cbn [mbind result_bind]. by rewrite !app_nil_r.
Qed.

(** All toggles off and nothing else; three toggles on before the three
    structured blocks. *)
Lemma expandRules_toggles_witness :
  expandRules cfgPlain = Ok [] /\
  exists structured,
    rulesFull
    = [ toggleRule "creation"; toggleRule "required_linear_history";
        toggleRule "non_fast_forward" ] ++ structured /\
    Forall isStructuredEntry structured.
Proof.
  split.
  - apply (expandRules_toggles cfgPlain false false false false false);
      reflexivity.
  - apply (expandRules_toggles cfgFull true false true false true);
      reflexivity.
Defined.

(** C10. In every rule list that is returned the toggle entries come first,
    then what the [rule_required_deployments] block emitted, then what the
    [rule_pull_request] block emitted, then what the
    [rule_required_status_checks] block emitted: each of the three is
    nothing or one entry of the kind of its block. *)
Theorem expandRules_order (d : ResourceData) (rules : list RepositoryRule) :
  expandRules d = Ok rules ->
  exists tog dep pr sc : list RepositoryRule,
    rules = tog ++ dep ++ pr ++ sc /\
    Forall isToggleEntry tog /\
    emitsDeployments dep /\ emitsPullRequest pr /\ emitsStatusChecks sc.
Proof.
  intros (tog & dep & pr & sc & Ht & Hd & Hp & Hs & ->)%expandRules_Ok.
  exists tog, dep, pr, sc. split; [done|].
  split; [by apply (toggleLoop_entries d)|].
  split; [by apply (requiredDeploymentsBlock_emits d)|].
  split; [by apply (pullRequestBlock_emits d)
         |by apply (requiredStatusChecksBlock_emits d)].
Qed.

(** All four groups at once. *)
Lemma expandRules_order_witness :
  expandRules cfgFull = Ok rulesFull /\
  exists tog dep pr sc : list RepositoryRule,
    rulesFull = tog ++ dep ++ pr ++ sc /\
    Forall isToggleEntry tog /\
    emitsDeployments dep /\ emitsPullRequest pr /\ emitsStatusChecks sc.
Proof.
  assert (H : expandRules cfgFull = Ok rulesFull) by reflexivity.
  split; [exact H|]. exact (expandRules_order cfgFull rulesFull H).
Defined.

(** ** What the blocks do with zero, one and several elements *)

Lemma toggleLoop_no_error (d : ResourceData) (names : list string)
    (acc : list RepositoryRule) (e : error) :
  toggleLoop d names acc <> Err e.
Proof.
  revert acc. induction names as [|n names IH]; intros acc; [done|].
  cbn [toggleLoop]. destruct (as_bool _) as [[|]| |] eqn:E;
    cbn [mbind result_bind]; try done.
  by destruct (Get d (rule_key n)).
Qed.

Lemma deploymentEnvsLoop_strings (envs acc : list string) :
  deploymentEnvsLoop (VString <$> envs) acc = Ok (acc ++ envs).
Proof.
  revert acc. induction envs as [|s envs IH]; intros acc; cbn.
  - by rewrite app_nil_r.
  - by rewrite IH, <- app_assoc.
Qed.

Lemma deploymentEnvsLoop_no_error (l : list value) (acc : list string) (e : error) :
  deploymentEnvsLoop l acc <> Err e.
Proof.
  revert acc. induction l as [|v l IH]; intros acc; [done|].
  cbn [deploymentEnvsLoop]. by destruct v; cbn.
Qed.

Lemma requiredDeploymentsBlock_no_error (d : ResourceData)
    (acc : list RepositoryRule) (e : error) :
  requiredDeploymentsBlock d acc <> Err e.
Proof.
  unfold requiredDeploymentsBlock.
  destruct (GetOk d "rule_required_deployments") as [v [|]]; [|done].
  destruct v; cbn; try done.
  destruct (deploymentEnvsLoop l []) eqn:E; cbn; try done.
  by apply deploymentEnvsLoop_no_error in E.
Qed.

Lemma pullRequestLoop_no_error (vL : list value) (acc : list RepositoryRule)
    (e : error) :
  pullRequestLoop vL acc <> Err e.
Proof.
  revert acc. induction vL as [|v vL IH]; intros acc; [done|].
  cbn [pullRequestLoop]. destruct (isNil v); [done|].
  intros H. repeat step_in H.
  all: try match goal with
           | E : as_map ?x = Err _ |- _ => by destruct x
           | E : as_bool ?x = Err _ |- _ => by destruct x
           | E : as_int ?x = Err _ |- _ => by destruct x
           end.
  by apply IH in H.
Qed.

Lemma pullRequestBlock_error (d : ResourceData) (acc : list RepositoryRule)
    (e : error) :
  pullRequestBlock d acc = Err e -> e = DuplicateRuleBlock "pull_request".
Proof.
  unfold pullRequestBlock. intros H.
  destruct (GetOk d "rule_pull_request") as [v [|]]; [|done].
  destruct v as [| | | | |l| |]; try done. cbn [as_list mbind result_bind] in H.
  step_in H.
  - by injection H as <-.
  - by apply pullRequestLoop_no_error in H.
Qed.

Lemma pullRequestBlock_duplicate (d : ResourceData) (vL : list value)
    (acc : list RepositoryRule) :
  GetOk d "rule_pull_request" = (VList vL, true) -> (1 < length vL)%nat ->
  pullRequestBlock d acc = Err (DuplicateRuleBlock "pull_request").
Proof.
  intros Hd Hlen%Nat.ltb_lt. unfold pullRequestBlock. rewrite Hd.
  cbn [as_list mbind result_bind]. by rewrite Hlen.
Qed.

Lemma requiredStatusChecksBlock_duplicate (d : ResourceData) (vL : list value)
    (acc : list RepositoryRule) :
  GetOk d "rule_required_status_checks" = (VList vL, true) ->
  (1 < length vL)%nat ->
  requiredStatusChecksBlock d acc
  = Err (DuplicateRuleBlock "required_status_checks").
Proof.
  intros Hd Hlen%Nat.ltb_lt. unfold requiredStatusChecksBlock. rewrite Hd.
  cbn [as_list mbind result_bind]. by rewrite Hlen.
Qed.

Lemma pullRequestBlock_nothing (d : ResourceData) (v : value) (ok : bool)
    (acc : list RepositoryRule) :
  GetOk d "rule_pull_request" = (v, ok) ->
  ok = false \/ v = VList [] \/ v = VList [VNil] ->
  pullRequestBlock d acc = Ok acc.
Proof.
  intros Hd H. unfold pullRequestBlock. rewrite Hd.
  destruct H as [->|[->| ->]]; [done| |]; by destruct ok.
Qed.

Lemma requiredStatusChecksBlock_nothing (d : ResourceData) (v : value) (ok : bool)
    (acc : list RepositoryRule) :
  GetOk d "rule_required_status_checks" = (v, ok) ->
  ok = false \/ v = VList [] \/ v = VList [VNil] ->
  requiredStatusChecksBlock d acc = Ok acc.
Proof.
  intros Hd H. unfold requiredStatusChecksBlock. rewrite Hd.
  destruct H as [->|[->| ->]]; [done| |]; by destruct ok.
Qed.

Lemma requiredDeploymentsBlock_set (d : ResourceData) (envs : list string)
    (acc : list RepositoryRule) :
  GetOk d "rule_required_deployments" = (VSet (VString <$> envs), true) ->
  requiredDeploymentsBlock d acc
  = Ok (acc ++ [structuredRule "required_deployments"
                  (MarshalRequiredDeployment
                     {| RequiredDeploymentEnvironments := envs |})]).
Proof.
  intros Hd. unfold requiredDeploymentsBlock. rewrite Hd. cbn.
  by rewrite deploymentEnvsLoop_strings.
Qed.

Lemma requiredDeploymentsBlock_unset (d : ResourceData) (v : value)
    (acc : list RepositoryRule) :
  GetOk d "rule_required_deployments" = (v, false) ->
  requiredDeploymentsBlock d acc = Ok acc.
Proof. intros Hd. unfold requiredDeploymentsBlock. by rewrite Hd. Qed.

Lemma pullRequestBlock_one (d : ResourceData) (m : gmap string value)
    (dismiss owner lastPush : bool) (count : Z) (resolution : bool)
    (acc : list RepositoryRule) :
  GetOk d "rule_pull_request" = (VList [VMap m], true) ->
  m !! "dismiss_stale_reviews_on_push" = Some (VBool dismiss) ->
  m !! "require_code_owner_review" = Some (VBool owner) ->
  m !! "require_last_push_approval" = Some (VBool lastPush) ->
  m !! "required_approving_review_count" = Some (VInt count) ->
  m !! "required_review_thread_resolution" = Some (VBool resolution) ->
  pullRequestBlock d acc
  = Ok (acc ++ [structuredRule "pull_request"
                  (MarshalPullRequest
                     {| DismissStaleReviewsOnPush := dismiss;
                        RequireCodeOwnerReview := owner;
                        RequireLastPushApproval := lastPush;
                        RequiredApprovingReviewCount := count;
                        RequiredReviewThreadResolution := resolution |})]).
Proof.
  intros Hd H1 H2 H3 H4 H5. unfold pullRequestBlock. rewrite Hd.
  cbn [as_list mbind result_bind length Nat.ltb Nat.leb pullRequestLoop isNil as_map].
  unfold index. by rewrite H1, H2, H3, H4, H5.
Qed.

Lemma statusChecksLoop_checks (toks : list value)
    (checks acc : list RuleRequiredStatusChecks) :
  Forall2 (fun tok check => parseStatusCheck tok = Ok check) toks checks ->
  statusChecksLoop toks acc = Ok (acc ++ checks).
Proof.
  intros H. revert acc.
  induction H as [|tok check toks checks Hp _ IH]; intros acc.
  - by rewrite app_nil_r.
  - cbn [statusChecksLoop]. rewrite Hp. cbn [mbind result_bind].
    by rewrite IH, <- app_assoc.
Qed.

Lemma requiredStatusChecksBlock_one (d : ResourceData) (m : gmap string value)
    (toks : list value) (checks : list RuleRequiredStatusChecks) (strict : bool)
    (acc : list RepositoryRule) :
  GetOk d "rule_required_status_checks" = (VList [VMap m], true) ->
  m !! "required_status_checks" = Some (VSet toks) ->
  Forall2 (fun tok check => parseStatusCheck tok = Ok check) toks checks ->
  m !! "strict_required_status_checks_policy" = Some (VBool strict) ->
  requiredStatusChecksBlock d acc
  = Ok (acc ++ [structuredRule "required_status_checks"
                  (MarshalRequiredStatusChecks
                     {| RequiredStatusChecks := checks;
                        StrictRequiredStatusChecksPolicy := strict |})]).
Proof.
  intros Hd H1 H2 H3. unfold requiredStatusChecksBlock. rewrite Hd.
  cbn [as_list mbind result_bind length Nat.ltb Nat.leb
         requiredStatusChecksLoop isNil as_map].
  unfold index. rewrite H1, H3. cbn [default from_option id Set_List mbind result_bind].
  rewrite (statusChecksLoop_checks _ _ _ H2). done.
Qed.

Lemma pullRequestBlock_length (d : ResourceData) (v : value)
    (pr : list RepositoryRule) :
  GetOk d "rule_pull_request" = (VList [v], true) ->
  pullRequestBlock d [] = Ok pr ->
  length pr = if isNil v then 0%nat else 1%nat.
Proof.
  intros Hd. unfold pullRequestBlock. rewrite Hd.
  cbn [as_list mbind result_bind length Nat.ltb Nat.leb pullRequestLoop].
  intros H. destruct (isNil v); [by injection H as <-|].
  repeat step_in H. by injection H as <-.
Qed.

Lemma requiredStatusChecksBlock_length (d : ResourceData) (v : value)
    (sc : list RepositoryRule) :
  GetOk d "rule_required_status_checks" = (VList [v], true) ->
  requiredStatusChecksBlock d [] = Ok sc ->
  length sc = if isNil v then 0%nat else 1%nat.
Proof.
  intros Hd. unfold requiredStatusChecksBlock. rewrite Hd.
  cbn [as_list mbind result_bind length Nat.ltb Nat.leb requiredStatusChecksLoop].
  intros H. destruct (isNil v); [by injection H as <-|].
  repeat step_in H. by injection H as <-.
Qed.

Lemma requiredDeploymentsBlock_length (d : ResourceData) (v : value)
    (dep : list RepositoryRule) :
  GetOk d "rule_required_deployments" = (v, true) ->
  requiredDeploymentsBlock d [] = Ok dep -> length dep = 1%nat.
Proof.
  intros Hd. unfold requiredDeploymentsBlock. rewrite Hd.
  intros H. repeat step_in H. by injection H as <-.
Qed.

(** The number of structured entries in a returned rule list is what the
    three blocks emitted. *)
Lemma expandRules_counts (d : ResourceData) (rules : list RepositoryRule) :
  expandRules d = Ok rules ->
  exists dep pr sc,
    requiredDeploymentsBlock d [] = Ok dep /\
    pullRequestBlock d [] = Ok pr /\
    requiredStatusChecksBlock d [] = Ok sc /\
    countKind "required_deployments" rules = length dep /\
    countKind "pull_request" rules = length pr /\
    countKind "required_status_checks" rules = length sc.
Proof.
  intros (tog & dep & pr & sc & Ht & Hd & Hp & Hs & ->)%expandRules_Ok.
  exists dep, pr, sc. do 3 (split; [done|]).
  apply toggleLoop_entries in Ht.
  pose proof (requiredDeploymentsBlock_emits _ _ Hd) as Hd'.
  pose proof (pullRequestBlock_emits _ _ Hp) as Hp'.
  pose proof (requiredStatusChecksBlock_emits _ _ Hs) as Hs'.
  rewrite !countKind_app,
    !(countKind_deployments _ _ Hd'), !(countKind_pullRequest _ _ Hp'),
    !(countKind_statusChecks _ _ Hs').
  assert (Hn : forall kind, kind ∈ structured_kinds -> countKind kind tog = 0%nat).
  { intros kind Hk. apply (countKind_other _ rules_toggleable); [|done].
    unfold structured_kinds in Hk. unfold rules_toggleable.
    rewrite !elem_of_cons, elem_of_nil in Hk.
    rewrite !not_elem_of_cons.
    destruct Hk as [->|[->|[->|[]]]]; repeat split;
      try discriminate; apply not_elem_of_nil. }
  rewrite !Hn by (unfold structured_kinds; set_solver).
  repeat split; repeat case_decide; try discriminate; try congruence; lia.
Qed.

(** ** How often a structured block may occur *)

(** C3, counterexample. The [rule_required_deployments] block with two
    elements does not fail: it is a set of environment names, and both names
    go into one entry. *)
Lemma expandRules_two_deployments :
  GetOk cfgTwoEnvs "rule_required_deployments"
    = (VSet [VString "staging"; VString "production"], true) /\
  expandRules cfgTwoEnvs
    = Ok [ structuredRule "required_deployments"
             (MarshalRequiredDeployment
                {| RequiredDeploymentEnvironments := ["staging"; "production"] |}) ] /\
  expandRules cfgTwoEnvs <> Err (DuplicateRuleBlock "required_deployments").
Proof. repeat split; try reflexivity. discriminate. Qed.

(** C3, as the code has it. Unless a type assertion panics:
    more than one [rule_pull_request] block fails with
    [DuplicateRuleBlock "pull_request"]; more than one
    [rule_required_status_checks] block fails as well, with
    [DuplicateRuleBlock "required_status_checks"] when the pull-request list
    is not set or has at most one block, and with the pull-request error
    otherwise. A list of either kind that is not set or has no block adds no
    entry and no error: the block hands on the rules it was given, and a
    returned rule list has no entry of the kind. The
    [rule_required_deployments] block has no such check: it is a set of
    environment names, which all go into a single entry; not set, it adds no
    entry and no error. *)
Theorem structured_block_occurrence :
  (forall (d : ResourceData) (vL : list value),
      GetOk d "rule_pull_request" = (VList vL, true) -> (1 < length vL)%nat ->
      expandRules d <> Panic ->
      expandRules d = Err (DuplicateRuleBlock "pull_request")) /\
  (forall (d : ResourceData) (vL : list value),
      GetOk d "rule_required_status_checks" = (VList vL, true) ->
      (1 < length vL)%nat ->
      expandRules d <> Panic ->
      (expandRules d = Err (DuplicateRuleBlock "pull_request") \/
       expandRules d = Err (DuplicateRuleBlock "required_status_checks")) /\
      (forall (v : value) (ok : bool),
          GetOk d "rule_pull_request" = (v, ok) ->
          ok = false \/ (exists l, v = VList l /\ (length l <= 1)%nat) ->
          expandRules d = Err (DuplicateRuleBlock "required_status_checks"))) /\
  (forall (d : ResourceData) (v : value) (ok : bool),
      GetOk d "rule_pull_request" = (v, ok) -> ok = false \/ v = VList [] ->
      (forall acc, pullRequestBlock d acc = Ok acc) /\
      (forall rules, expandRules d = Ok rules -> countKind "pull_request" rules = 0%nat)) /\
  (forall (d : ResourceData) (v : value) (ok : bool),
      GetOk d "rule_required_status_checks" = (v, ok) ->
      ok = false \/ v = VList [] ->
      (forall acc, requiredStatusChecksBlock d acc = Ok acc) /\
      (forall rules,
          expandRules d = Ok rules ->
          countKind "required_status_checks" rules = 0%nat)) /\
  (forall (d : ResourceData) (envs : list string) (acc : list RepositoryRule),
      GetOk d "rule_required_deployments" = (VSet (VString <$> envs), true) ->
      requiredDeploymentsBlock d acc
      = Ok (acc ++ [structuredRule "required_deployments"
                      (MarshalRequiredDeployment
                         {| RequiredDeploymentEnvironments := envs |})])) /\
  (forall (d : ResourceData) (v : value),
      GetOk d "rule_required_deployments" = (v, false) ->
      (forall acc, requiredDeploymentsBlock d acc = Ok acc) /\
      (forall rules,
          expandRules d = Ok rules ->
          countKind "required_deployments" rules = 0%nat)).
Proof.
  assert (Hpr : forall d vL,
             GetOk d "rule_pull_request" = (VList vL, true) ->
             (1 < length vL)%nat -> expandRules d <> Panic ->
             expandRules d = Err (DuplicateRuleBlock "pull_request")).
  { intros d vL Hd Hlen. rewrite expandRules_blocks.
    destruct (toggleLoop d rules_toggleable []) as [tog|e|] eqn:Et;
      [|by apply toggleLoop_no_error in Et|done].
    destruct (requiredDeploymentsBlock d []) as [dep|e|] eqn:Ed;
      [|by apply requiredDeploymentsBlock_no_error in Ed|done].
    by rewrite (pullRequestBlock_duplicate _ _ _ Hd Hlen). }
  assert (Hsc : forall d vL,
             GetOk d "rule_required_status_checks" = (VList vL, true) ->
             (1 < length vL)%nat -> expandRules d <> Panic ->
             (exists pr, pullRequestBlock d [] = Ok pr /\
                expandRules d = Err (DuplicateRuleBlock "required_status_checks")) \/
             (pullRequestBlock d [] = Err (DuplicateRuleBlock "pull_request") /\
                expandRules d = Err (DuplicateRuleBlock "pull_request"))).
  { intros d vL Hd Hlen. rewrite expandRules_blocks.
    destruct (toggleLoop d rules_toggleable []) as [tog|e|] eqn:Et;
      [|by apply toggleLoop_no_error in Et|done].
    destruct (requiredDeploymentsBlock d []) as [dep|e|] eqn:Ed;
      [|by apply requiredDeploymentsBlock_no_error in Ed|done].
    destruct (pullRequestBlock d []) as [pr|e|] eqn:Ep; [| |done].
    - rewrite (requiredStatusChecksBlock_duplicate _ _ _ Hd Hlen). eauto.
    - apply pullRequestBlock_error in Ep as ->. by right. }
  split; [exact Hpr|]. split; [|split; [|split; [|split]]].
  - intros d vL Hd Hlen Hnp. split.
    + destruct (Hsc d vL Hd Hlen Hnp) as [(pr & _ & ->)|[_ ->]]; auto.
    + intros v ok Hv Hok.
      destruct (Hsc d vL Hd Hlen Hnp) as [(pr & _ & ->)|[Hp _]]; [done|].
      exfalso. revert Hp. unfold pullRequestBlock. rewrite Hv.
      destruct Hok as [->|(l & -> & Hl)]; [done|].
      destruct ok; [|done]. cbn [as_list mbind result_bind].
      apply Nat.ltb_ge in Hl. rewrite Hl. apply pullRequestLoop_no_error.
  - intros d v ok Hd Hok.
    assert (Hb : forall acc, pullRequestBlock d acc = Ok acc).
    { intros acc. apply (pullRequestBlock_nothing d v ok); tauto. }
    split; [exact Hb|].
    intros rules (dep & pr & sc & _ & Hp & _ & _ & -> & _)%expandRules_counts.
    rewrite Hb in Hp. by injection Hp as <-.
  - intros d v ok Hd Hok.
    assert (Hb : forall acc, requiredStatusChecksBlock d acc = Ok acc).
    { intros acc. apply (requiredStatusChecksBlock_nothing d v ok); tauto. }
    split; [exact Hb|].
    intros rules (dep & pr & sc & _ & _ & Hs & _ & _ & ->)%expandRules_counts.
    rewrite Hb in Hs. by injection Hs as <-.
  - intros d envs acc Hd. by apply requiredDeploymentsBlock_set.
  - intros d v Hd.
    assert (Hb : forall acc, requiredDeploymentsBlock d acc = Ok acc).
    { intros acc. by apply (requiredDeploymentsBlock_unset d v). }
    split; [exact Hb|].
    intros rules (dep & pr & sc & Hdep & _ & _ & -> & _)%expandRules_counts.
    rewrite Hb in Hdep. by injection Hdep as <-.
Qed.

(** Two pull-request blocks; two status-check blocks; no pull-request
    block. *)
Lemma structured_block_occurrence_witness :
  expandRules cfgTwoPullRequests = Err (DuplicateRuleBlock "pull_request") /\
  expandRules cfgTwoStatusChecks = Err (DuplicateRuleBlock "required_status_checks") /\
  countKind "pull_request" [] = 0%nat.
Proof.
  destruct structured_block_occurrence as (Hpr & Hsc & Hprz & _).
  split; [|split].
  - eapply Hpr; [reflexivity | simpl; lia | discriminate].
  - eapply Hsc; [reflexivity | simpl; lia | discriminate | reflexivity | by left].
  - eapply (Hprz cfgPlain); [reflexivity | by left | reflexivity].
Defined.

(** C4, counterexample. A [rule_pull_request] list whose single block is
    null emits no entry at all: the loop is left at the null block. *)
Lemma expandRules_null_pull_request :
  GetOk cfgNullPullRequest "rule_pull_request" = (VList [VNil], true) /\
  expandRules cfgNullPullRequest = Ok [] /\
  countKind "pull_request" [] <> 1%nat.
Proof. repeat split; try reflexivity. discriminate. Qed.

(** C4, as the code has it. A [rule_pull_request] list with exactly one
    block that is not null and has its five fields emits exactly one
    pull_request entry; a [rule_required_status_checks] list with exactly
    one block that is not null, whose tokens all parse, emits exactly one
    required_status_checks entry; a [rule_required_deployments] set, with one
    environment name as with any number, emits exactly one
    required_deployments entry. A list of either kind whose single block is
    null emits nothing. Accordingly a returned rule list has, for a list of
    one block, one entry of the kind if the block is not null and none if it
    is, and one required_deployments entry if that set is set. *)
Theorem structured_block_one_element :
  (forall (d : ResourceData) (m : gmap string value)
          (dismiss owner lastPush : bool) (count : Z) (resolution : bool)
          (acc : list RepositoryRule),
      GetOk d "rule_pull_request" = (VList [VMap m], true) ->
      m !! "dismiss_stale_reviews_on_push" = Some (VBool dismiss) ->
      m !! "require_code_owner_review" = Some (VBool owner) ->
      m !! "require_last_push_approval" = Some (VBool lastPush) ->
      m !! "required_approving_review_count" = Some (VInt count) ->
      m !! "required_review_thread_resolution" = Some (VBool resolution) ->
      pullRequestBlock d acc
      = Ok (acc ++ [structuredRule "pull_request"
                      (MarshalPullRequest
                         {| DismissStaleReviewsOnPush := dismiss;
                            RequireCodeOwnerReview := owner;
                            RequireLastPushApproval := lastPush;
                            RequiredApprovingReviewCount := count;
                            RequiredReviewThreadResolution := resolution |})])) /\
  (forall (d : ResourceData) (acc : list RepositoryRule),
      GetOk d "rule_pull_request" = (VList [VNil], true) ->
      pullRequestBlock d acc = Ok acc) /\
  (forall (d : ResourceData) (m : gmap string value) (toks : list value)
          (checks : list RuleRequiredStatusChecks) (strict : bool)
          (acc : list RepositoryRule),
      GetOk d "rule_required_status_checks" = (VList [VMap m], true) ->
      m !! "required_status_checks" = Some (VSet toks) ->
      Forall2 (fun tok check => parseStatusCheck tok = Ok check) toks checks ->
      m !! "strict_required_status_checks_policy" = Some (VBool strict) ->
      requiredStatusChecksBlock d acc
      = Ok (acc ++ [structuredRule "required_status_checks"
                      (MarshalRequiredStatusChecks
                         {| RequiredStatusChecks := checks;
                            StrictRequiredStatusChecksPolicy := strict |})])) /\
  (forall (d : ResourceData) (acc : list RepositoryRule),
      GetOk d "rule_required_status_checks" = (VList [VNil], true) ->
      requiredStatusChecksBlock d acc = Ok acc) /\
  (forall (d : ResourceData) (envs : list string) (acc : list RepositoryRule),
      GetOk d "rule_required_deployments" = (VSet (VString <$> envs), true) ->
      requiredDeploymentsBlock d acc
      = Ok (acc ++ [structuredRule "required_deployments"
                      (MarshalRequiredDeployment
                         {| RequiredDeploymentEnvironments := envs |})])) /\
  (forall (d : ResourceData) (rules : list RepositoryRule) (v : value),
      expandRules d = Ok rules ->
      (GetOk d "rule_pull_request" = (VList [v], true) ->
       countKind "pull_request" rules = if isNil v then 0%nat else 1%nat) /\
      (GetOk d "rule_required_status_checks" = (VList [v], true) ->
       countKind "required_status_checks" rules
       = if isNil v then 0%nat else 1%nat) /\
      (GetOk d "rule_required_deployments" = (v, true) ->
       countKind "required_deployments" rules = 1%nat)).
Proof.
  split; [exact pullRequestBlock_one|].
  split; [intros d acc Hd; apply (pullRequestBlock_nothing d _ _ acc Hd); tauto|].
  split; [exact requiredStatusChecksBlock_one|].
  split; [intros d acc Hd;
          apply (requiredStatusChecksBlock_nothing d _ _ acc Hd); tauto|].
  split; [exact requiredDeploymentsBlock_set|].
  intros d rules v
    (dep & pr & sc & Hdep & Hpr & Hsc & -> & -> & ->)%expandRules_counts.
  split; [|split]; intros Hd.
  - by apply (pullRequestBlock_length d).
  - by apply (requiredStatusChecksBlock_length d).
  - by apply (requiredDeploymentsBlock_length d v).
Qed.

(** One block of each kind; a single null pull-request block. *)
Lemma structured_block_one_element_witness :
  expandRules cfgFull = Ok rulesFull /\
  countKind "pull_request" rulesFull = 1%nat /\
  countKind "required_status_checks" rulesFull = 1%nat /\
  countKind "required_deployments" rulesFull = 1%nat /\
  pullRequestBlock cfgNullPullRequest [] = Ok [].
Proof.
  assert (H : expandRules cfgFull = Ok rulesFull) by reflexivity.
  destruct structured_block_one_element as (_ & Hnull & _ & _ & _ & Hcount).
  split; [exact H|]. split; [|split; [|split]].
  - apply (proj1 (Hcount cfgFull rulesFull
                    (pullRequestElement true false true 2 false) H)).
    reflexivity.
  - apply (proj1 (proj2 (Hcount cfgFull rulesFull
                    (statusChecksElement ["ci/a"; "ci/b:99"] true) H))).
    reflexivity.
  - apply (proj2 (proj2 (Hcount cfgFull rulesFull
                    (VSet [VString "staging"; VString "production"]) H))).
    reflexivity.
  - apply Hnull. reflexivity.
Defined.

(** ** The request assembler *)

Lemma bypassActorsLoop_no_error (vL : list value) (acc : list BypassActor)
    (e : error) :
  bypassActorsLoop vL acc <> Err e.
Proof.
  revert acc. induction vL as [|v vL IH]; intros acc; [done|].
  cbn [bypassActorsLoop]. intros H. repeat step_in H.
  all: try match goal with
           | E : as_map ?x = Err _ |- _ => by destruct x
           | E : as_string ?x = Err _ |- _ => by destruct x
           | E : as_int ?x = Err _ |- _ => by destruct x
           end.
  by apply IH in H.
Qed.

Lemma expandBypassActors_no_error (d : ResourceData) (e : error) :
  expandBypassActors d <> Err e.
Proof.
  unfold expandBypassActors. intros H.
  destruct (GetOk d "bypass_actors") as [v [|]]; [|done].
  destruct v as [| | | | | |l|]; try done. cbn [Set_List mbind result_bind] in H.
  step_in H. by apply bypassActorsLoop_no_error in E.
Qed.

(** C1. The condition of a request, the optional include and exclude
    pair of the specification, is the ref-name condition that the request's
    conditions object holds. When no [conditions] block is set, every
    request that is built has no such condition: its conditions object holds
    no ref-name condition; and the request is built as soon as the scalar
    fields are strings and the bypass actors and the rules are built. When
    two [conditions] blocks or more are set the build fails with
    [DuplicateConditionsBlock], unless a type assertion panics before. *)
Theorem buildRulesetRequest_conditions :
  (forall (d : ResourceData) (sourceType : option string) (req : Ruleset),
      (GetOk d "conditions").2 = false ->
      buildRulesetRequest d sourceType = Ok req ->
      GetRefName (Conditions req) = None /\
      Conditions req = Some {| RefName := None |}) /\
  (forall (d : ResourceData) (sourceType : option string)
          (target name enforcement : string)
          (bypassActors : option (list BypassActor))
          (rules : list RepositoryRule),
      Get d "target" = VString target ->
      Get d "name" = VString name ->
      Get d "enforcement" = VString enforcement ->
      expandBypassActors d = Ok bypassActors ->
      (GetOk d "conditions").2 = false ->
      expandRules d = Ok rules ->
      buildRulesetRequest d sourceType
      = Ok {| Name := name;
              Target := Some target;
              SourceType := sourceType;
              Enforcement := enforcement;
              BypassActors := bypassActors;
              Conditions := Some {| RefName := None |};
              Rules := rules |}) /\
  (forall (d : ResourceData) (sourceType : option string) (vL : list value),
      GetOk d "conditions" = (VList vL, true) -> (1 < length vL)%nat ->
      buildRulesetRequest d sourceType <> Panic ->
      buildRulesetRequest d sourceType = Err DuplicateConditionsBlock).
Proof.
  assert (Hunset : forall d, (GetOk d "conditions").2 = false ->
                             expandConditions d = Ok None).
  { intros d Hd. unfold expandConditions.
    destruct (GetOk d "conditions") as [v ok]. cbn in Hd. by subst. }
  split; [|split].
  - intros d sourceType req Hd H. unfold buildRulesetRequest in H.
    rewrite (Hunset d Hd) in H. repeat step_in H. by injection H as <-.
  - intros d sourceType target name enforcement bypassActors rules
      Ht Hn He Hb Hd Hr.
    unfold buildRulesetRequest.
    by rewrite Ht, Hn, He, Hb, (Hunset d Hd), Hr.
  - intros d sourceType vL Hd Hlen. unfold buildRulesetRequest.
    destruct (as_string (Get d "target")) as [target|e|] eqn:Et;
      [|by destruct (Get d "target")|done].
    destruct (as_string (Get d "name")) as [name|e|] eqn:En;
      [|by destruct (Get d "name")|done].
    destruct (as_string (Get d "enforcement")) as [enforcement|e|] eqn:Ee;
      [|by destruct (Get d "enforcement")|done].
    destruct (expandBypassActors d) as [bypassActors|e|] eqn:Eb;
      [|by apply expandBypassActors_no_error in Eb|done].
    cbn [mbind result_bind]. unfold expandConditions. rewrite Hd.
    cbn [as_list mbind result_bind]. apply Nat.ltb_lt in Hlen. by rewrite Hlen.
Qed.

(** No conditions block; two conditions blocks. *)
Lemma buildRulesetRequest_conditions_witness :
  buildRulesetRequest cfgPlain None = Ok reqPlain /\
  GetRefName (Conditions reqPlain) = None /\
  buildRulesetRequest cfgTwoConditions None = Err DuplicateConditionsBlock.
Proof.
  destruct buildRulesetRequest_conditions as (Hunset & _ & Hdup).
  assert (H : buildRulesetRequest cfgPlain None = Ok reqPlain) by reflexivity.
  split; [exact H|]. split.
  - apply (Hunset cfgPlain None reqPlain); [reflexivity | exact H].
  - eapply Hdup; [reflexivity | simpl; lia | discriminate].
Defined.

(** ** The state flattener *)

(** C7. For every remote ruleset the flattener writes the [conditions] key
    and returns no error. If the ruleset has a ref-name condition, what is
    written is a list of one block, whose [include] and [exclude] are the
    sequences of that condition; if it has none (no ruleset, no conditions
    object or no ref-name condition in it), what is written is the empty
    list. The key is written in either case. *)
Theorem flattenAndSetRulesetConditions_block (d : ResourceData)
    (ruleset : option Ruleset) :
  (flattenAndSetRulesetConditions d ruleset).2 = None /\
  (forall refName : RulesetRefConditionParameters,
      GetRefName (GetConditions ruleset) = Some refName ->
      written (flattenAndSetRulesetConditions d ruleset).1 !! "conditions"
        = Some (VList [VMap (flatBlock refName)]) /\
      flatBlock refName !! "include" = Some (VStrings (Include refName)) /\
      flatBlock refName !! "exclude" = Some (VStrings (Exclude refName))) /\
  (GetRefName (GetConditions ruleset) = None ->
   written (flattenAndSetRulesetConditions d ruleset).1 !! "conditions"
     = Some (VList [])) /\
  written (flattenAndSetRulesetConditions d ruleset).1 !! "conditions" <> None /\
  (forall key : string,
      key <> "conditions" ->
      written (flattenAndSetRulesetConditions d ruleset).1 !! key
        = written d !! key) /\
  GetOk (flattenAndSetRulesetConditions d ruleset).1 = GetOk d.
Proof.
  unfold flattenAndSetRulesetConditions, ResourceData_Set.
  destruct (GetConditions ruleset) as [rc|] eqn:Erc; cbn [GetRefName mbind option_bind].
  - destruct (RefName rc) as [refName|] eqn:Ern; cbn [fst snd written GetOk].
    + split; [done|]. split; [|split; [done|split; [|split; [|done]]]].
      * intros ? [= <-]. split; [by rewrite lookup_insert_eq|].
        unfold flatBlock. split; [by rewrite lookup_insert_eq|].
        rewrite lookup_insert_ne by done. by rewrite lookup_insert_eq.
      * by rewrite lookup_insert_eq.
      * intros key Hk. by rewrite lookup_insert_ne.
    + split; [done|]. split; [done|]. split; [by rewrite lookup_insert_eq|].
      split; [by rewrite lookup_insert_eq|]. split; [|done].
      intros key Hk. by rewrite lookup_insert_ne.
  - cbn [fst snd written GetOk].
    split; [done|]. split; [done|]. split; [by rewrite lookup_insert_eq|].
    split; [by rewrite lookup_insert_eq|]. split; [|done].
    intros key Hk. by rewrite lookup_insert_ne.
Qed.

(** A ruleset with a ref-name condition and one without. *)
Lemma flattenAndSetRulesetConditions_block_witness :
  written (flattenAndSetRulesetConditions cfgPlain (Some reqMain)).1 !! "conditions"
    = Some (VList [VMap (flatBlock builtMain)]) /\
  written (flattenAndSetRulesetConditions cfgPlain (Some reqPlain)).1 !! "conditions"
    = Some (VList []).
Proof.
  split.
  - apply (flattenAndSetRulesetConditions_block cfgPlain (Some reqMain)).
    reflexivity.
  - apply (flattenAndSetRulesetConditions_block cfgPlain (Some reqPlain)).
    reflexivity.
Defined.

(** ** Round trip of a condition *)

Lemma nestedSetLoop_strings (l acc : list string) :
  nestedSetLoop (VString <$> l) acc = Ok (acc ++ l).
Proof.
  revert acc. induction l as [|s l IH]; intros acc; cbn.
  - by rewrite app_nil_r.
  - by rewrite IH, <- app_assoc.
Qed.

Lemma expandNestedSet_setOf (m' : gmap string value) (key : string)
    (l : list string) (v : value) :
  m' !! key = Some v -> setOf l v ->
  exists l', expandNestedSet m' key = Ok l' /\
             NoDup l' /\ forall x, x ∈ l' <-> x ∈ l.
Proof.
  intros Hk (l' & -> & Hnd & Hl). exists l'. split; [|done].
  unfold expandNestedSet. rewrite Hk. cbn [Set_List mbind result_bind].
  apply nestedSetLoop_strings.
Qed.

(** Whatever condition was flattened, building from what is read back gives
    a condition with the same include set and the same exclude set. *)
Lemma expandConditions_read_back (d' : ResourceData) (m' : gmap string value)
    (refName : RulesetRefConditionParameters) :
  GetOk d' "conditions" = (VList [VMap m'], true) ->
  readsAs (flatBlock refName) m' ->
  exists refName',
    expandConditions d' = Ok (Some refName') /\
    (NoDup (Include refName') /\
     forall x, x ∈ Include refName' <-> x ∈ Include refName) /\
    (NoDup (Exclude refName') /\
     forall x, x ∈ Exclude refName' <-> x ∈ Exclude refName).
Proof.
  intros Hd [(li & vi & Hi & Hi' & Hsi) (le & ve & He & He' & Hse)].
  unfold flatBlock in Hi, He.
  rewrite lookup_insert_eq in Hi. injection Hi as <-.
  rewrite lookup_insert_ne, lookup_insert_eq in He by done. injection He as <-.
  destruct (expandNestedSet_setOf _ _ _ _ Hi' Hsi) as (inc & Einc & Hinc).
  destruct (expandNestedSet_setOf _ _ _ _ He' Hse) as (exc & Eexc & Hexc).
  exists {| Include := inc; Exclude := exc |}. split; [|done].
  unfold expandConditions. rewrite Hd.
  cbn [as_list mbind result_bind length Nat.ltb Nat.leb conditionsLoop isNil as_map].
  by rewrite Einc, Eexc.
Qed.

Lemma singleton_set (x : string) (l : list string) :
  NoDup l -> (forall y, y ∈ l <-> y ∈ [x]) -> l = [x].
Proof.
  intros Hnd Hl. destruct l as [|a [|b l]].
  - exfalso. apply (not_elem_of_nil x), Hl. by left.
  - f_equal. apply list_elem_of_singleton, Hl. by left.
  - exfalso.
    assert (a = x) as -> by (apply list_elem_of_singleton, Hl; by left).
    assert (b = x) as -> by (apply list_elem_of_singleton, Hl; right; by left).
    apply NoDup_cons in Hnd as [Hx _]. apply Hx. by left.
Qed.

Lemma empty_set (l : list string) : (forall y, y ∈ l <-> y ∈ []) -> l = [].
Proof.
  intros Hl. destruct l as [|a l]; [done|].
  exfalso. apply (not_elem_of_nil a), Hl. by left.
Qed.

(** C6. The configuration that includes [refs/heads/main] and excludes
    nothing builds the condition with exactly these two sets, and the request
    that carries it. Flatten that request; let the block that was written be
    read back, its two string sequences as sets; build from it again: the
    condition is the same, include set and exclude set. *)
Theorem conditions_round_trip (d d' : ResourceData) (m m' : gmap string value) :
  written (flattenAndSetRulesetConditions d (Some reqMain)).1 !! "conditions"
    = Some (VList [VMap m]) ->
  GetOk d' "conditions" = (VList [VMap m'], true) ->
  readsAs m m' ->
  expandConditions cfgMain = Ok (Some builtMain) /\
  buildRulesetRequest cfgMain None = Ok reqMain /\
  expandConditions d' = Ok (Some builtMain).
Proof.
  intros Hw Hd Hr. split; [reflexivity|]. split; [reflexivity|].
  cbn in Hw. rewrite lookup_insert_eq in Hw. injection Hw as <-.
  destruct (expandConditions_read_back d' m' builtMain Hd Hr)
    as ([inc exc] & -> & [Hnd Hinc] & [_ Hexc]).
  cbn [Include Exclude builtMain] in *.
  by rewrite (singleton_set _ _ Hnd Hinc), (empty_set _ Hexc).
Qed.

(** The round trip with the set read back in the order it was written. *)
Lemma conditions_round_trip_witness :
  expandConditions cfgMain = Ok (Some builtMain).
Proof.
  refine (proj2 (proj2
    (conditions_round_trip cfgPlain cfgMain (flatBlock builtMain)
       (<["include" := VSet (VString <$> ["refs/heads/main"])]>
          (<["exclude" := VSet (VString <$> [])]> ∅)) _ _ _))).
  - reflexivity.
  - reflexivity.
  - split.
    + exists ["refs/heads/main"], (VSet (VString <$> ["refs/heads/main"])).
      split; [reflexivity|]. split; [reflexivity|].
      exists ["refs/heads/main"]. split; [reflexivity|].
      split; [|done]. apply NoDup_singleton.
    + exists [], (VSet (VString <$> [])).
      split; [reflexivity|]. split; [reflexivity|].
      exists []. split; [reflexivity|]. split; [|done]. apply NoDup_nil_2.
Defined.

(* ================================================================== *)
(** * Further properties of the builders *)

(** ** The kinds of a rule list *)

Lemma toggleLoop_sublist (d : ResourceData) (names : list string)
    (tog : list RepositoryRule) :
  toggleLoop d names [] = Ok tog -> (RuleType <$> tog) `sublist_of` names.
Proof.
  revert tog. induction names as [|n names IH]; intros tog H.
  - injection H as <-. constructor.
  - cbn [toggleLoop] in H. step_in H. step_in H.
    + rewrite toggleLoop_acc in H. step_in H. injection H as <-.
      cbn. apply sublist_skip. by apply IH.
    + apply sublist_cons. by apply IH.
Qed.

Lemma emits_sublist (dep pr sc : list RepositoryRule) :
  emitsDeployments dep -> emitsPullRequest pr -> emitsStatusChecks sc ->
  (RuleType <$> dep ++ pr ++ sc) `sublist_of` structured_kinds.
Proof.
  intros Hd Hp Hs. rewrite !fmap_app.
  apply (sublist_app _ ["required_deployments"] _
           ["pull_request"; "required_status_checks"]).
  { destruct Hd as [->|[p ->]]; [apply sublist_nil_l|done]. }
  apply (sublist_app _ ["pull_request"] _ ["required_status_checks"]).
  { destruct Hp as [->|[p ->]]; [apply sublist_nil_l|done]. }
  destruct Hs as [->|[p ->]]; [apply sublist_nil_l|done].
Qed.

Lemma NoDup_all_kinds : NoDup all_kinds.
Proof.
  unfold all_kinds, rules_toggleable, structured_kinds. cbn [app].
  repeat (apply NoDup_cons; split;
          [rewrite ?not_elem_of_cons; repeat split;
           try discriminate; apply not_elem_of_nil|]).
  apply NoDup_nil_2.
Qed.

(** X1. The kinds of a returned rule list, read from first to last, are
    taken in order from the eight kinds creation, deletion,
    required_linear_history, required_signatures, non_fast_forward,
    required_deployments, pull_request, required_status_checks. So no kind
    occurs twice and a rule list has at most eight entries. *)
Theorem expandRules_kinds (d : ResourceData) (rules : list RepositoryRule) :
  expandRules d = Ok rules ->
  (RuleType <$> rules) `sublist_of` all_kinds /\
  NoDup (RuleType <$> rules) /\
  (length rules <= 8)%nat.
Proof.
  intros (tog & dep & pr & sc & Ht & Hd & Hp & Hs & ->)%expandRules_Ok.
  assert (Hsub : (RuleType <$> tog ++ dep ++ pr ++ sc) `sublist_of` all_kinds).
  { rewrite fmap_app. apply sublist_app; [by apply (toggleLoop_sublist d)|].
    apply emits_sublist.
    - by apply (requiredDeploymentsBlock_emits d).
    - by apply (pullRequestBlock_emits d).
    - by apply (requiredStatusChecksBlock_emits d). }
  split; [exact Hsub|]. split.
  - exact (sublist_NoDup _ _ NoDup_all_kinds Hsub).
  - apply sublist_length in Hsub. by rewrite length_fmap in Hsub.
Qed.

(** Three toggles and the three structured blocks: six kinds in order. *)
Lemma expandRules_kinds_witness :
  (RuleType <$> rulesFull) `sublist_of` all_kinds /\
  NoDup (RuleType <$> rulesFull) /\
  (length rulesFull <= 8)%nat.
Proof. apply (expandRules_kinds cfgFull). reflexivity. Defined.

(** ** What the token parser can answer *)

Lemma parseStatusCheck_no_colon (token : string) :
  no_colon token = true ->
  parseStatusCheck (VString token)
  = Ok {| Context := token; IntegrationID := None |}.
Proof.
  intros H. unfold parseStatusCheck. cbn [as_string mbind result_bind].
  by rewrite (SplitN_no_colon _ H).
Qed.

Lemma parseStatusCheck_colon (ctx rest : string) :
  no_colon ctx = true ->
  parseStatusCheck (VString (ctx +:+ ":" +:+ rest))
  = if String.eqb rest EmptyString
    then Ok {| Context := ctx; IntegrationID := None |}
    else match strconv.Atoi rest with
         | Some n => Ok {| Context := ctx; IntegrationID := Some n |}
         | None => Err (InvalidIntegrationId rest)
         end.
Proof.
  intros H. unfold parseStatusCheck. cbn [as_string mbind result_bind].
  rewrite (SplitN_first_colon _ _ H). cbn [mbind result_bind].
  destruct (String.eqb rest EmptyString); cbn [negb]; [done|].
  destruct (strconv.Atoi rest) as [n|] eqn:E; [|done].
  by rewrite (int64_inInt64 _ (Atoi_inInt64 _ _ E)).
Qed.

Lemma parseStatusCheck_error (v : value) (e : error) :
  parseStatusCheck v = Err e ->
  exists rest, rest <> EmptyString /\ strconv.Atoi rest = None /\
               e = InvalidIntegrationId rest.
Proof.
  destruct v as [| | |token| | | |]; try done.
  destruct (first_colon token) as [H|(ctx & rest & -> & H)].
  - by rewrite (parseStatusCheck_no_colon _ H).
  - rewrite (parseStatusCheck_colon _ _ H).
    destruct (String.eqb_spec rest EmptyString) as [->|Hne]; [done|].
    destruct (strconv.Atoi rest) eqn:E; [done|].
    intros [= <-]. by exists rest.
Qed.

Lemma last_char_append (a b : string) :
  b <> EmptyString -> last_char (a +:+ b) = last_char b.
Proof.
  intros Hb. induction a as [|c a IH]; [done|].
  rewrite append_cons. cbn [last_char]. rewrite IH.
  destruct (a +:+ b) eqn:E; [|done].
  destruct a; [by rewrite append_nil in E | by rewrite append_cons in E].
Qed.

Lemma InvalidIntegrationId_not_Malformed (rest token : string) :
  InvalidIntegrationId rest <> MalformedCheckToken token.
Proof.
  assert (Hne : forall a b : string, b <> EmptyString -> a +:+ b <> EmptyString).
  { intros [|c a] b Hb; [by rewrite append_nil | by rewrite append_cons]. }
  intros H. apply (f_equal last_char) in H.
  unfold InvalidIntegrationId, MalformedCheckToken in H.
  rewrite (last_char_append "could not parse ") in H by (by apply Hne).
  rewrite (last_char_append rest) in H by done.
  rewrite (last_char_append "could not parse check '") in H by (by apply Hne).
  rewrite (last_char_append token) in H by done.
  discriminate H.
Qed.

(** X2. On a string the token parser never panics, and the error of its
    [default] branch is never returned. What it returns has a context
    without any colon, with which the token begins, and an integration id
    that fits 64 bits; its only error is [InvalidIntegrationId] for the text
    after the first colon, when that text is not empty and no integer. On
    anything but a string it panics. *)
Theorem parseStatusCheck_outcomes (token : string) :
  parseStatusCheck (VString token) <> Panic /\
  (forall check : RuleRequiredStatusChecks,
      parseStatusCheck (VString token) = Ok check ->
      no_colon (Context check) = true /\
      (exists rest, token = Context check +:+ rest) /\
      (forall n, IntegrationID check = Some n -> inInt64 n)) /\
  (forall e : error,
      parseStatusCheck (VString token) = Err e ->
      (exists ctx rest,
          token = ctx +:+ ":" +:+ rest /\ no_colon ctx = true /\
          rest <> EmptyString /\ strconv.Atoi rest = None /\
          e = InvalidIntegrationId rest) /\
      (forall t, e <> MalformedCheckToken t)) /\
  (forall v : value, isString v = false -> parseStatusCheck v = Panic).
Proof.
  split; [|split; [|split]].
  - destruct (first_colon token) as [H|(ctx & rest & -> & H)].
    + by rewrite (parseStatusCheck_no_colon _ H).
    + rewrite (parseStatusCheck_colon _ _ H).
      destruct (String.eqb rest EmptyString); [done|].
      by destruct (strconv.Atoi rest).
  - intros check. destruct (first_colon token) as [H|(ctx & rest & -> & H)].
    + rewrite (parseStatusCheck_no_colon _ H). intros [= <-]. cbn.
      split; [done|]. split; [|done].
      exists EmptyString. clear H. induction token as [|c t IH]; [done|].
      by rewrite append_cons, <- IH.
    + rewrite (parseStatusCheck_colon _ _ H).
      destruct (String.eqb rest EmptyString).
      * intros [= <-]. cbn. split; [done|]. split; [by eexists|done].
      * destruct (strconv.Atoi rest) as [n|] eqn:E; [|done].
        intros [= <-]. cbn. split; [done|]. split; [by eexists|].
        intros ? [= <-]. by apply (Atoi_inInt64 rest).
  - intros e He. split.
    + destruct (first_colon token) as [H|(ctx & rest & -> & H)].
      * by rewrite (parseStatusCheck_no_colon _ H) in He.
      * rewrite (parseStatusCheck_colon _ _ H) in He. revert He.
        destruct (String.eqb_spec rest EmptyString) as [->|Hne]; [done|].
        destruct (strconv.Atoi rest) eqn:E; [done|].
        intros [= <-]. by exists ctx, rest.
    + apply parseStatusCheck_error in He as (rest & _ & _ & ->).
      intros t. apply InvalidIntegrationId_not_Malformed.
  - by intros [| | | | | | |].
Qed.

(** The parser on [ci/test:abc]. *)
Lemma parseStatusCheck_outcomes_witness :
  exists ctx rest,
    tokenBadId = ctx +:+ ":" +:+ rest /\ no_colon ctx = true /\
    rest <> EmptyString /\ strconv.Atoi rest = None /\
    InvalidIntegrationId "abc" = InvalidIntegrationId rest.
Proof.
  apply (proj1 (proj2 (proj2 (parseStatusCheck_outcomes tokenBadId)))
           (InvalidIntegrationId "abc")).
  reflexivity.
Defined.

(** ** The errors of the rule builder *)

Lemma statusChecksLoop_error (toks : list value)
    (acc : list RuleRequiredStatusChecks) (e : error) :
  statusChecksLoop toks acc = Err e ->
  exists tok, tok ∈ toks /\ parseStatusCheck tok = Err e.
Proof.
  revert acc. induction toks as [|tok toks IH]; intros acc H; [done|].
  cbn [statusChecksLoop] in H.
  destruct (parseStatusCheck tok) as [check|e'|] eqn:E;
    cbn [mbind result_bind] in H; [| |done].
  - destruct (IH _ H) as (tok' & Hin & Htok). exists tok'. split; [by right|done].
  - injection H as ->. exists tok. split; [by left|done].
Qed.

Lemma requiredStatusChecksLoop_error (vL : list value)
    (acc : list RepositoryRule) (e : error) :
  requiredStatusChecksLoop vL acc = Err e ->
  exists tok, parseStatusCheck tok = Err e.
Proof.
  revert acc. induction vL as [|v vL IH]; intros acc H; [done|].
  cbn [requiredStatusChecksLoop] in H. step_in H.
  destruct (as_map v) as [m|e'|] eqn:Em; [|by destruct v|done].
  cbn [mbind result_bind] in H.
  destruct (Set_List _) as [toks|e'|] eqn:Es in H;
    [|by destruct (index m "required_status_checks")|done].
  cbn [mbind result_bind] in H.
  destruct (statusChecksLoop toks []) as [checks|e'|] eqn:Ec;
    cbn [mbind result_bind] in H; [| |done].
  - destruct (as_bool _) as [strict|e'|] eqn:Eb in H;
      [|by destruct (index m "strict_required_status_checks_policy")|done].
    cbn [mbind result_bind] in H. by apply IH in H.
  - injection H as ->.
    apply statusChecksLoop_error in Ec as (tok & _ & Htok). by exists tok.
Qed.

Lemma requiredStatusChecksBlock_error (d : ResourceData)
    (acc : list RepositoryRule) (e : error) :
  requiredStatusChecksBlock d acc = Err e ->
  e = DuplicateRuleBlock "required_status_checks" \/
  exists tok, parseStatusCheck tok = Err e.
Proof.
  unfold requiredStatusChecksBlock. intros H.
  destruct (GetOk d "rule_required_status_checks") as [v [|]]; [|done].
  destruct v as [| | | | |l| |]; try done. cbn [as_list mbind result_bind] in H.
  step_in H.
  - left. by injection H as <-.
  - right. by apply requiredStatusChecksLoop_error in H.
Qed.

Lemma expandRules_Err (d : ResourceData) (e : error) :
  expandRules d = Err e ->
  e = DuplicateRuleBlock "pull_request" \/
  e = DuplicateRuleBlock "required_status_checks" \/
  exists tok, parseStatusCheck tok = Err e.
Proof.
  rewrite expandRules_blocks. intros H.
  destruct (toggleLoop d rules_toggleable []) as [tog|e'|] eqn:Et;
    [|by apply toggleLoop_no_error in Et|done].
  destruct (requiredDeploymentsBlock d []) as [dep|e'|] eqn:Ed;
    [|by apply requiredDeploymentsBlock_no_error in Ed|done].
  cbn [mbind result_bind] in H.
  destruct (pullRequestBlock d []) as [pr|e'|] eqn:Ep;
    cbn [mbind result_bind] in H; [| |done].
  - destruct (requiredStatusChecksBlock d []) as [sc|e'|] eqn:Es;
      cbn [mbind result_bind] in H; [done| |done].
    injection H as ->. right. by apply (requiredStatusChecksBlock_error d []).
  - injection H as ->. left. by apply (pullRequestBlock_error d []).
Qed.

(** X3. The rule builder has three errors and no other: the duplicate error
    of the pull-request block, the duplicate error of the status-check
    block, and [InvalidIntegrationId] for a text that is not empty and no
    integer. The error of the [default] branch at line 206 is never
    returned. *)
Theorem expandRules_errors (d : ResourceData) (e : error) :
  expandRules d = Err e ->
  (e = DuplicateRuleBlock "pull_request" \/
   e = DuplicateRuleBlock "required_status_checks" \/
   exists rest, rest <> EmptyString /\ strconv.Atoi rest = None /\
                e = InvalidIntegrationId rest) /\
  (forall token, e <> MalformedCheckToken token).
Proof.
  intros [->|[->|(tok & Htok)]]%expandRules_Err.
  - split; [by left|]. intros token H. vm_compute in H. discriminate H.
  - split; [by right; left|]. intros token H. vm_compute in H. discriminate H.
  - apply parseStatusCheck_error in Htok as (rest & Hne & Hrest & ->).
    split; [right; right; by exists rest|].
    intros token. apply InvalidIntegrationId_not_Malformed.
Qed.

(** The error of a token without an integer after its colon. *)
Lemma expandRules_errors_witness :
  (InvalidIntegrationId "x" = DuplicateRuleBlock "pull_request" \/
   InvalidIntegrationId "x" = DuplicateRuleBlock "required_status_checks" \/
   exists rest, rest <> EmptyString /\ strconv.Atoi rest = None /\
                InvalidIntegrationId "x" = InvalidIntegrationId rest) /\
  (forall token, InvalidIntegrationId "x" <> MalformedCheckToken token).
Proof. apply (expandRules_errors cfgBadToken). reflexivity. Defined.

Lemma statusChecksLoop_first_error (good rest : list value) (bad : value)
    (checks : list RuleRequiredStatusChecks) (e : error)
    (acc : list RuleRequiredStatusChecks) :
  Forall2 (fun tok check => parseStatusCheck tok = Ok check) good checks ->
  parseStatusCheck bad = Err e ->
  statusChecksLoop (good ++ bad :: rest) acc = Err e.
Proof.
  intros Hgood Hbad. revert acc.
  induction Hgood as [|tok check good checks Hp _ IH]; intros acc.
  - cbn [app statusChecksLoop]. by rewrite Hbad.
  - cbn [app statusChecksLoop]. rewrite Hp. cbn [mbind result_bind].
    apply IH.
Qed.

(** X4. The status-check tokens are parsed in the order the set yields
    them, and the first token that does not parse ends the build: its error
    is the error of the block, whatever follows it in the set and whether or
    not the block has its policy flag; and it is the error of the rule
    builder unless that panics or fails on the pull-request block before. *)
Theorem statusChecks_first_bad_token (d : ResourceData) (m : gmap string value)
    (good rest : list value) (bad : value)
    (checks : list RuleRequiredStatusChecks) (e : error) :
  GetOk d "rule_required_status_checks" = (VList [VMap m], true) ->
  m !! "required_status_checks" = Some (VSet (good ++ bad :: rest)) ->
  Forall2 (fun tok check => parseStatusCheck tok = Ok check) good checks ->
  parseStatusCheck bad = Err e ->
  (forall acc, requiredStatusChecksBlock d acc = Err e) /\
  (expandRules d <> Panic ->
   expandRules d <> Err (DuplicateRuleBlock "pull_request") ->
   expandRules d = Err e).
Proof.
  intros Hd Hm Hgood Hbad.
  pose proof (fun acc => statusChecksLoop_first_error good rest bad checks e acc
                           Hgood Hbad) as Hloop.
  assert (Hblock : forall acc, requiredStatusChecksBlock d acc = Err e).
  { intros acc. unfold requiredStatusChecksBlock. rewrite Hd.
    cbn [as_list mbind result_bind length Nat.ltb Nat.leb
           requiredStatusChecksLoop isNil as_map].
    unfold index. rewrite Hm. cbn [default from_option id Set_List mbind result_bind].
    by rewrite Hloop. }
  split; [exact Hblock|].
  rewrite expandRules_blocks.
  destruct (toggleLoop d rules_toggleable []) as [tog|e'|] eqn:Et;
    [|by apply toggleLoop_no_error in Et|done].
  destruct (requiredDeploymentsBlock d []) as [dep|e'|] eqn:Ed;
    [|by apply requiredDeploymentsBlock_no_error in Ed|done].
  cbn [mbind result_bind].
  destruct (pullRequestBlock d []) as [pr|e'|] eqn:Ep; cbn [mbind result_bind].
  - by rewrite Hblock.
  - apply pullRequestBlock_error in Ep as ->. done.
  - done.
Qed.

(** The second token fails; the third element, no string, is never looked
    at, and neither is the missing policy flag. *)
Lemma statusChecks_first_bad_token_witness :
  expandRules cfgBadToken = Err (InvalidIntegrationId "x").
Proof.
  refine (proj2 (statusChecks_first_bad_token cfgBadToken
            (<["required_status_checks" :=
                 VSet [VString "ci/a"; VString "ci/b:x"; VInt 7]]> ∅)
            [VString "ci/a"] [VInt 7] (VString "ci/b:x")
            [{| Context := "ci/a"; IntegrationID := None |}]
            (InvalidIntegrationId "x") _ _ _ _) _ _).
  - reflexivity.
  - reflexivity.
  - repeat constructor.
  - reflexivity.
  - discriminate.
  - discriminate.
Defined.

(** ** When the builders panic *)

Lemma bypassActorsLoop_Panic (vL : list value) (acc : list BypassActor) :
  bypassActorsLoop vL acc = Panic <-> forallb conformsActor vL = false.
Proof.
  revert acc. induction vL as [|v vL IH]; intros acc; [done|].
  cbn [bypassActorsLoop forallb].
  destruct v as [| | | | | | |m]; try done. cbn [as_map mbind result_bind conformsActor].
  destruct (index m "actor_id"); try done.
  destruct (index m "actor_type"); try done.
  cbn [as_int as_string mbind result_bind isInt isString andb]. apply IH.
Qed.

Lemma toggleLoop_Panic (d : ResourceData) (names : list string)
    (acc : list RepositoryRule) :
  toggleLoop d names acc = Panic
  <-> forallb (fun ruleName => isBool (Get d (rule_key ruleName))) names = false.
Proof.
  revert acc. induction names as [|n names IH]; intros acc; [done|].
  cbn [toggleLoop forallb].
  destruct (Get d (rule_key n)) as [|[|]| | | | | |]; try done;
    cbn [as_bool mbind result_bind isBool andb]; apply IH.
Qed.

Lemma deploymentEnvsLoop_Ok (l : list value) (acc : list string) :
  forallb isString l = true -> exists envs, deploymentEnvsLoop l acc = Ok envs.
Proof.
  revert acc. induction l as [|v l IH]; intros acc H; [by eexists|].
  cbn [forallb] in H. apply andb_prop in H as [Hv Hl].
  destruct v; try done. cbn [deploymentEnvsLoop as_string mbind result_bind].
  by apply IH.
Qed.

Lemma requiredDeploymentsBlock_no_panic (d : ResourceData)
    (acc : list RepositoryRule) :
  conformsDeployments d = true -> requiredDeploymentsBlock d acc <> Panic.
Proof.
  unfold conformsDeployments, requiredDeploymentsBlock.
  destruct (GetOk d "rule_required_deployments") as [v [|]]; [|done].
  destruct v as [| | | | | |l|]; try done. intros H.
  cbn [Set_List mbind result_bind].
  by destruct (deploymentEnvsLoop_Ok l [] H) as [envs ->].
Qed.

Lemma pullRequestLoop_no_panic (vL : list value) (acc : list RepositoryRule) :
  forallb conformsPullRequestElement vL = true -> pullRequestLoop vL acc <> Panic.
Proof.
  revert acc. induction vL as [|v vL IH]; intros acc H; [done|].
  cbn [forallb] in H. apply andb_prop in H as [Hv Hl].
  cbn [pullRequestLoop]. destruct v as [| | | | | | |m]; try done.
  cbn [isNil as_map mbind result_bind]. cbn [conformsPullRequestElement] in Hv.
  repeat match type of Hv with
         | _ && _ = true => let H' := fresh in apply andb_prop in Hv as [Hv H']
         end.
  repeat match goal with
         | H' : isBool ?x = true |- _ => destruct x; try discriminate H'; clear H'
         | H' : isInt ?x = true |- _ => destruct x; try discriminate H'; clear H'
         end.
  cbn [as_bool as_int mbind result_bind]. by apply IH.
Qed.

Lemma pullRequestBlock_no_panic (d : ResourceData) (acc : list RepositoryRule) :
  conformsPullRequest d = true -> pullRequestBlock d acc <> Panic.
Proof.
  unfold conformsPullRequest, pullRequestBlock.
  destruct (GetOk d "rule_pull_request") as [v [|]]; [|done].
  destruct v as [| | | | |l| |]; try done. intros H.
  cbn [as_list mbind result_bind].
  destruct (1 <? length l)%nat; [done|]. by apply pullRequestLoop_no_panic.
Qed.

Lemma statusChecksLoop_no_panic (toks : list value)
    (acc : list RuleRequiredStatusChecks) :
  forallb isString toks = true -> statusChecksLoop toks acc <> Panic.
Proof.
  revert acc. induction toks as [|tok toks IH]; intros acc H; [done|].
  cbn [forallb] in H. apply andb_prop in H as [Hv Hl].
  destruct tok as [| | |token| | | |]; try done. cbn [statusChecksLoop].
  destruct (parseStatusCheck (VString token)) as [check|e|] eqn:E;
    cbn [mbind result_bind]; [by apply IH|done|].
  destruct (first_colon token) as [H|(ctx & rest & -> & H)].
  - by rewrite (parseStatusCheck_no_colon _ H) in E.
  - rewrite (parseStatusCheck_colon _ _ H) in E.
    destruct (String.eqb rest EmptyString); [done|].
    by destruct (strconv.Atoi rest).
Qed.

Lemma requiredStatusChecksLoop_no_panic (vL : list value)
    (acc : list RepositoryRule) :
  forallb conformsStatusChecksElement vL = true ->
  requiredStatusChecksLoop vL acc <> Panic.
Proof.
  revert acc. induction vL as [|v vL IH]; intros acc H; [done|].
  cbn [forallb] in H. apply andb_prop in H as [Hv Hl].
  cbn [requiredStatusChecksLoop]. destruct v as [| | | | | | |m]; try done.
  cbn [isNil as_map mbind result_bind]. cbn [conformsStatusChecksElement] in Hv.
  apply andb_prop in Hv as [Htoks Hstrict].
  destruct (index m "required_status_checks") as [| | | | | |toks|]; try done.
  cbn [Set_List mbind result_bind].
  destruct (statusChecksLoop toks []) as [checks|e|] eqn:E;
    cbn [mbind result_bind]; [|done|by apply statusChecksLoop_no_panic in E].
  destruct (index m "strict_required_status_checks_policy"); try done.
  cbn [as_bool mbind result_bind]. by apply IH.
Qed.

Lemma requiredStatusChecksBlock_no_panic (d : ResourceData)
    (acc : list RepositoryRule) :
  conformsStatusChecks d = true -> requiredStatusChecksBlock d acc <> Panic.
Proof.
  unfold conformsStatusChecks, requiredStatusChecksBlock.
  destruct (GetOk d "rule_required_status_checks") as [v [|]]; [|done].
  destruct v as [| | | | |l| |]; try done. intros H.
  cbn [as_list mbind result_bind].
  destruct (1 <? length l)%nat; [done|].
  by apply requiredStatusChecksLoop_no_panic.
Qed.

(** X5. The type assertions of the two builders. [expandBypassActors]
    panics exactly when [bypass_actors] is set and is no set of maps with an
    integer [actor_id] and a string [actor_type]; otherwise it returns, and
    never an error. [expandRules] panics whenever one of the five toggles
    reads as something else than a boolean, and does not panic on a
    configuration whose toggles are booleans and whose three blocks, where
    set, have the types the code asserts. *)
Theorem builders_panic (d : ResourceData) :
  (expandBypassActors d = Panic <-> conformsActors d = false) /\
  (conformsActors d = true -> exists actors, expandBypassActors d = Ok actors) /\
  (conformsToggles d = false -> expandRules d = Panic) /\
  (conformsRules d = true -> expandRules d <> Panic).
Proof.
  assert (Hactors : expandBypassActors d = Panic <-> conformsActors d = false).
  { unfold expandBypassActors, conformsActors.
    destruct (GetOk d "bypass_actors") as [v [|]]; [|done].
    destruct v as [| | | | | |l|]; try done. cbn [Set_List mbind result_bind].
    rewrite <- (bypassActorsLoop_Panic l []).
    by destruct (bypassActorsLoop l []). }
  split; [exact Hactors|]. split; [|split].
  - intros Hc.
    assert (Hnp : expandBypassActors d <> Panic).
    { intros HP. apply Hactors in HP. congruence. }
    clear Hactors. destruct (expandBypassActors d) as [actors|e|] eqn:E.
    + by exists actors.
    + by apply expandBypassActors_no_error in E.
    + done.
  - intros Hc. unfold expandRules.
    by rewrite (proj2 (toggleLoop_Panic d rules_toggleable []) Hc).
  - unfold conformsRules.
    intros [[[Ht Hd]%andb_prop Hp]%andb_prop Hs]%andb_prop.
    rewrite expandRules_blocks.
    destruct (toggleLoop d rules_toggleable []) as [tog|e|] eqn:Et;
      [|by apply toggleLoop_no_error in Et
       |apply toggleLoop_Panic in Et; unfold conformsToggles in Ht; congruence].
    cbn [mbind result_bind].
    destruct (requiredDeploymentsBlock d []) as [dep|e|] eqn:Ed;
      [|done|by apply requiredDeploymentsBlock_no_panic in Ed].
    cbn [mbind result_bind].
    destruct (pullRequestBlock d []) as [pr|e|] eqn:Ep;
      [|done|by apply pullRequestBlock_no_panic in Ep].
    cbn [mbind result_bind].
    destruct (requiredStatusChecksBlock d []) as [sc|e|] eqn:Es;
      [done|done|by apply requiredStatusChecksBlock_no_panic in Es].
Qed.

(** A configuration with every block, well typed; and one whose status
    checks hold a number. *)
Lemma builders_panic_witness :
  expandRules cfgFull <> Panic /\
  (exists actors, expandBypassActors cfgTwoActors = Ok actors) /\
  conformsRules cfgBadToken = false.
Proof.
  split; [|split].
  - apply (builders_panic cfgFull). reflexivity.
  - apply (builders_panic cfgTwoActors). reflexivity.
  - reflexivity.
Defined.

(** ** What the rule builder reads *)

Lemma toggleLoop_reads (d1 d2 : ResourceData) (names : list string)
    (acc : list RepositoryRule) :
  (forall n, n ∈ names -> Get d1 (rule_key n) = Get d2 (rule_key n)) ->
  toggleLoop d1 names acc = toggleLoop d2 names acc.
Proof.
  revert acc. induction names as [|n names IH]; intros acc H; [done|].
  cbn [toggleLoop]. rewrite (H n) by (by left).
  destruct (as_bool _) as [[|]| |]; cbn [mbind result_bind]; try done;
    apply IH; intros n' Hn'; apply H; by right.
Qed.

(** X6. The rule builder reads eight keys and nothing else: of the five
    toggles the value, whatever their set flag; of the three blocks the
    value and the set flag. Two configurations that agree there build the
    same rules, come to the same error or panic alike. *)
Theorem expandRules_reads (d1 d2 : ResourceData) :
  (forall n, n ∈ rules_toggleable -> Get d1 (rule_key n) = Get d2 (rule_key n)) ->
  (forall k, k ∈ structured_kinds -> GetOk d1 (rule_key k) = GetOk d2 (rule_key k)) ->
  expandRules d1 = expandRules d2.
Proof.
  intros Ht Hs. unfold expandRules.
  rewrite (toggleLoop_reads d1 d2 _ _ Ht).
  destruct (toggleLoop d2 rules_toggleable []) as [tog| |];
    cbn [mbind result_bind]; [|done|done].
  pose proof (Hs "required_deployments") as Hd.
  pose proof (Hs "pull_request") as Hp.
  pose proof (Hs "required_status_checks") as Hc.
  change (rule_key "required_deployments") with "rule_required_deployments" in Hd.
  change (rule_key "pull_request") with "rule_pull_request" in Hp.
  change (rule_key "required_status_checks")
    with "rule_required_status_checks" in Hc.
  unfold requiredDeploymentsBlock, pullRequestBlock, requiredStatusChecksBlock.
  rewrite Hd, Hp, Hc; [done| | |]; unfold structured_kinds; set_solver.
Qed.

(** Two configurations that differ in their bypass actors only build the
    same rules. *)
Lemma expandRules_reads_witness : expandRules cfgPlain = expandRules cfgTwoActors.
Proof.
  apply expandRules_reads.
  - intros n Hn. unfold rules_toggleable in Hn.
    repeat (apply elem_of_cons in Hn as [->|Hn]; [reflexivity|]).
    by apply elem_of_nil in Hn.
  - intros k Hk. unfold structured_kinds in Hk.
    repeat (apply elem_of_cons in Hk as [->|Hk]; [reflexivity|]).
    by apply elem_of_nil in Hk.
Defined.

(** ** What the flattener keeps *)

Lemma flatten_written (d : ResourceData) (ruleset : option Ruleset) :
  written (flattenAndSetRulesetConditions d ruleset).1 !! "conditions"
  = Some (match GetRefName (GetConditions ruleset) with
          | Some refName => VList [VMap (flatBlock refName)]
          | None => VList []
          end).
Proof.
  unfold flattenAndSetRulesetConditions, ResourceData_Set.
  destruct (GetConditions ruleset) as [rc|]; cbn [GetRefName mbind option_bind].
  - destruct (RefName rc) as [refName|]; cbn [fst written];
      by rewrite lookup_insert_eq.
  - cbn [fst written]. by rewrite lookup_insert_eq.
Qed.

Lemma flatBlock_inj (c1 c2 : RulesetRefConditionParameters) :
  flatBlock c1 = flatBlock c2 -> c1 = c2.
Proof.
  intros H.
  assert (Hi : flatBlock c1 !! "include" = flatBlock c2 !! "include") by by rewrite H.
  assert (He : flatBlock c1 !! "exclude" = flatBlock c2 !! "exclude") by by rewrite H.
  unfold flatBlock in Hi, He.
  rewrite !lookup_insert_eq in Hi.
  rewrite !(lookup_insert_ne _ "include" "exclude"), !lookup_insert_eq in He by done.
  clear H. destruct c1, c2. cbn [Include Exclude] in Hi, He. congruence.
Qed.

(** X7. What the flattener writes under [conditions] depends on the
    ref-name condition of the ruleset and on nothing else (not on the
    configuration written to, not on the other fields of the ruleset), and it
    loses nothing of it: two rulesets are flattened to the same value
    exactly when they have the same ref-name condition or both have none. In
    particular a condition with empty include and exclude is not flattened
    like no condition. *)
Theorem flatten_faithful (d1 d2 : ResourceData) (r1 r2 : option Ruleset) :
  written (flattenAndSetRulesetConditions d1 r1).1 !! "conditions"
  = written (flattenAndSetRulesetConditions d2 r2).1 !! "conditions"
  <-> GetRefName (GetConditions r1) = GetRefName (GetConditions r2).
Proof.
  rewrite !flatten_written. split.
  - destruct (GetRefName (GetConditions r1)) as [c1|],
             (GetRefName (GetConditions r2)) as [c2|]; try done.
    intros H. f_equal. apply flatBlock_inj.
    apply (f_equal (fun o => match o with
                             | Some (VList [VMap m]) => Some m
                             | _ => None
                             end)) in H.
    by apply (inj Some).
  - by intros ->.
Qed.

(** The request without condition and the request with the condition on
    [refs/heads/main] are flattened differently; the name of the
    configuration does not matter. *)
Lemma flatten_faithful_witness :
  written (flattenAndSetRulesetConditions cfgPlain (Some reqMain)).1 !! "conditions"
  = written (flattenAndSetRulesetConditions cfgFull (Some reqMain)).1 !! "conditions"
  /\ written (flattenAndSetRulesetConditions cfgPlain (Some reqMain)).1 !! "conditions"
     <> written (flattenAndSetRulesetConditions cfgPlain (Some reqPlain)).1 !! "conditions".
Proof.
  split.
  - apply (flatten_faithful cfgPlain cfgFull (Some reqMain) (Some reqMain)).
    reflexivity.
  - intros H.
    apply (flatten_faithful cfgPlain cfgPlain (Some reqMain) (Some reqPlain)) in H.
    discriminate H.
Defined.

(** ** Where the bypass actors come from *)

Lemma bypassActorsLoop_inversion (vL : list value) (acc actors : list BypassActor) :
  bypassActorsLoop vL acc = Ok actors ->
  exists new, actors = acc ++ new /\ Forall2 readsActor vL new.
Proof.
  revert acc. induction vL as [|v vL IH]; intros acc H.
  - injection H as <-. exists []. by rewrite app_nil_r.
  - cbn [bypassActorsLoop] in H.
    destruct v as [| | | | | | |m]; try done. cbn [as_map mbind result_bind] in H.
    destruct (index m "actor_id") as [| |id| | | | |] eqn:Eid; try done.
    destruct (index m "actor_type") as [| | |ty| | | |] eqn:Ety; try done.
    cbn [as_int as_string mbind result_bind] in H.
    destruct (IH _ H) as (new & -> & Hnew).
    exists ({| ActorID := Some (int64 id); ActorType := Some ty |} :: new).
    split; [by rewrite <- app_assoc|].
    constructor; [|done]. by exists m, id, ty.
Qed.

(** X8. The bypass actors are nil exactly when [bypass_actors] is not set.
    A sequence that is returned comes from a set, element by element and in
    the order the set yields them: every actor has an id and a type, read
    from [actor_id] and [actor_type] of its element, and no other field of
    the element is looked at. *)
Theorem expandBypassActors_inversion (d : ResourceData) :
  (expandBypassActors d = Ok None <-> (GetOk d "bypass_actors").2 = false) /\
  (forall actors : list BypassActor,
      expandBypassActors d = Ok (Some actors) ->
      exists vL, GetOk d "bypass_actors" = (VSet vL, true) /\
                 Forall2 readsActor vL actors).
Proof.
  unfold expandBypassActors.
  destruct (GetOk d "bypass_actors") as [v [|]]; cbn [snd].
  - split.
    + split; [|done]. intros H. repeat step_in H.
    + intros actors H. destruct v as [| | | | | |vL|]; try done.
      cbn [Set_List mbind result_bind] in H. step_in H. injection H as <-.
      apply bypassActorsLoop_inversion in E as (new & -> & Hnew).
      by exists vL.
  - split; [done|]. intros actors H. discriminate H.
Qed.

(** Two actors from two elements; nil from no set. *)
Lemma expandBypassActors_inversion_witness :
  (exists vL, GetOk cfgTwoActors "bypass_actors" = (VSet vL, true) /\
     Forall2 readsActor vL
       [ {| ActorID := Some 5; ActorType := Some "RepositoryRole" |};
         {| ActorID := Some 13473; ActorType := Some "Integration" |} ]) /\
  expandBypassActors cfgPlain = Ok None.
Proof.
  split.
  - apply (proj2 (expandBypassActors_inversion cfgTwoActors)). reflexivity.
  - apply (proj1 (expandBypassActors_inversion cfgPlain)). reflexivity.
Defined.

(** ** The assembler: errors first come, first served *)

(** X10. An error of the assembler is an error of the condition builder or,
    when that returned, an error of the rule builder: there is no other, the
    bypass actors have none. When the scalar fields are strings and the
    bypass actors are built, an error of the condition builder is the error
    of the assembler whatever the rule builder would do, and an error of the
    rule builder is the error of the assembler when the condition builder
    returned. *)
Theorem buildRulesetRequest_errors :
  (forall (d : ResourceData) (sourceType : option string) (e : error),
      buildRulesetRequest d sourceType = Err e ->
      expandConditions d = Err e \/
      exists conditions, expandConditions d = Ok conditions /\
                         expandRules d = Err e) /\
  (forall (d : ResourceData) (sourceType : option string)
          (target name enforcement : string)
          (bypassActors : option (list BypassActor)) (e : error),
      Get d "target" = VString target ->
      Get d "name" = VString name ->
      Get d "enforcement" = VString enforcement ->
      expandBypassActors d = Ok bypassActors ->
      (expandConditions d = Err e -> buildRulesetRequest d sourceType = Err e) /\
      (forall conditions,
          expandConditions d = Ok conditions -> expandRules d = Err e ->
          buildRulesetRequest d sourceType = Err e)).
Proof.
  split.
  - intros d sourceType e H. unfold buildRulesetRequest in H.
    destruct (as_string (Get d "target")) as [target|e'|] eqn:Et;
      [|by destruct (Get d "target")|done].
    destruct (as_string (Get d "name")) as [name|e'|] eqn:En;
      [|by destruct (Get d "name")|done].
    destruct (as_string (Get d "enforcement")) as [enforcement|e'|] eqn:Ee;
      [|by destruct (Get d "enforcement")|done].
    destruct (expandBypassActors d) as [bypassActors|e'|] eqn:Eb;
      [|by apply expandBypassActors_no_error in Eb|done].
    cbn [mbind result_bind] in H.
    destruct (expandConditions d) as [conditions|e'|] eqn:Ec;
      cbn [mbind result_bind] in H; [| |done].
    + right. exists conditions. split; [done|].
      by destruct (expandRules d) as [rules|e'|]; cbn [mbind result_bind] in H;
        [done|injection H as ->|done].
    + left. by injection H as ->.
  - intros d sourceType target name enforcement bypassActors e Ht Hn He Hb.
    unfold buildRulesetRequest. rewrite Ht, Hn, He, Hb.
    cbn [as_string mbind result_bind]. split.
    + by intros ->.
    + by intros conditions -> ->.
Qed.

(** Two conditions blocks and two pull-request blocks: the error is the one
    of the conditions. *)
Lemma buildRulesetRequest_errors_witness :
  expandRules cfgTwoOfBoth = Err (DuplicateRuleBlock "pull_request") /\
  buildRulesetRequest cfgTwoOfBoth None = Err DuplicateConditionsBlock.
Proof.
  split; [reflexivity|].
  apply (proj1 (proj2 buildRulesetRequest_errors cfgTwoOfBoth None
                  "branch" "protect-main" "active" None DuplicateConditionsBlock
                  eq_refl eq_refl eq_refl eq_refl)).
  reflexivity.
Defined.

(** ** The assembler: what a request is made of *)

(** X11. A request that is built has the name, the target and the
    enforcement that the configuration gives as strings, the source type
    that was passed, the bypass actors, the condition and the rules of the
    three builders. Its target and its conditions object are never nil, its
    bypass actors are nil exactly when [bypass_actors] is not set, and no two
    of its rules have the same kind. *)
Theorem buildRulesetRequest_request (d : ResourceData)
    (sourceType : option string) (req : Ruleset) :
  buildRulesetRequest d sourceType = Ok req ->
  Get d "name" = VString (Name req) /\
  (exists target, Target req = Some target /\ Get d "target" = VString target) /\
  Get d "enforcement" = VString (Enforcement req) /\
  SourceType req = sourceType /\
  expandBypassActors d = Ok (BypassActors req) /\
  (BypassActors req = None <-> (GetOk d "bypass_actors").2 = false) /\
  (exists conditions,
      expandConditions d = Ok conditions /\
      Conditions req = Some {| RefName := conditions |}) /\
  expandRules d = Ok (Rules req) /\
  NoDup (RuleType <$> Rules req).
Proof.
  intros H. unfold buildRulesetRequest in H.
  destruct (Get d "target") as [| | |target| | | |] eqn:Et; try done.
  destruct (Get d "name") as [| | |name| | | |] eqn:En; try done.
  destruct (Get d "enforcement") as [| | |enforcement| | | |] eqn:Ee; try done.
  cbn [as_string mbind result_bind] in H.
  destruct (expandBypassActors d) as [bypassActors|e|] eqn:Eb; try done.
  cbn [mbind result_bind] in H.
  destruct (expandConditions d) as [conditions|e|] eqn:Ec; try done.
  cbn [mbind result_bind] in H.
  destruct (expandRules d) as [rules|e|] eqn:Er; try done.
  injection H as <-. cbn.
  split; [done|]. split; [by exists target|]. do 3 (split; [done|]).
  split; [|split; [by exists conditions|split; [done|]]].
  - revert Eb. unfold expandBypassActors.
    destruct (GetOk d "bypass_actors") as [v [|]]; cbn [snd].
    + intros H. repeat step_in H. by injection H as <-.
    + by intros [= <-].
  - apply expandRules_Ok in Er as (tog & dep & pr & sc & Ht & Hd & Hp & Hs & ->).
    apply (sublist_NoDup _ all_kinds); [exact NoDup_all_kinds|].
    rewrite fmap_app. apply sublist_app; [by apply (toggleLoop_sublist d)|].
    apply emits_sublist.
    + by apply (requiredDeploymentsBlock_emits d).
    + by apply (pullRequestBlock_emits d).
    + by apply (requiredStatusChecksBlock_emits d).
Qed.

(** The request of the configuration with the scalar fields only. *)
Lemma buildRulesetRequest_request_witness :
  expandBypassActors cfgPlain = Ok (BypassActors reqPlain) /\
  expandRules cfgPlain = Ok (Rules reqPlain) /\
  NoDup (RuleType <$> Rules reqPlain).
Proof.
  assert (H : buildRulesetRequest cfgPlain None = Ok reqPlain) by reflexivity.
  pose proof (buildRulesetRequest_request cfgPlain None reqPlain H)
    as (_ & _ & _ & _ & Hb & _ & _ & Hr & Hn).
  by repeat split.
Defined.
